(** * sched/irq/irq_dispatch.c: the interrupt dispatch trampoline

    A shallow embedding of [irq_dispatch] and of the two macros it expands,
    [INCR_COUNT] and [CALL_VECTOR], under every combination of the build
    options the file tests with the preprocessor.

    The dispatcher is modelled as a computation over the kernel globals it
    touches ([g_irqvector], [g_running_tasks]) that also emits the sequence
    of effects it performs: every access to a field of a vector slot, every
    call it makes (the service routine, the entropy hook, the clocks) and
    the final write of the running task. *)

From Stdlib Require Import ZArith List Bool Lia.
Import ListNotations.
Local Open Scope Z_scope.

(** ** Machine integers *)

(** [unsigned int], [uint32_t]: values are reduced modulo 2^32. *)
Definition uint32 (z : Z) : Z := z mod 2 ^ 32.

(** [uint64_t]: values are reduced modulo 2^64. *)
Definition uint64 (z : Z) : Z := z mod 2 ^ 64.

(** Pointers are addresses; [NULL] is address zero.  [xcpt_t] is the type
    of a pointer to a service routine [int (*)(int, void *, void *)]. *)
Definition xcpt_t := Z.
Definition NULL : Z := 0.

Record timespec := mk_timespec { tv_sec : Z; tv_nsec : Z }.

(** ** Build options

    One field per preprocessor symbol that irq_dispatch.c tests, and the
    two integer constants [NR_IRQS] and [CONFIG_ARCH_NUSER_INTERRUPTS]. *)
Record config := mk_config {
  CONFIG_SCHED_IRQMONITOR : bool;
  CONFIG_HAVE_LONG_LONG : bool;
  CONFIG_SCHED_TICKLESS : bool;
  CONFIG_SCHED_CRITMONITOR : bool;
  CONFIG_SCHED_IRQMONITOR_GETTIME : bool;
  CONFIG_ARCH_MINIMAL_VECTORTABLE : bool;
  CONFIG_CRYPTO_RANDOM_POOL_COLLECT_IRQ_RANDOMNESS : bool;
  NR_IRQS : Z;
  CONFIG_ARCH_NUSER_INTERRUPTS : Z
}.

(** Lines 84-90: [HAVE_PLATFORM_GETTIME]. *)
Definition HAVE_PLATFORM_GETTIME (cfg : config) : bool :=
  CONFIG_SCHED_IRQMONITOR cfg &&
  (negb (CONFIG_SCHED_TICKLESS cfg) ||
   CONFIG_SCHED_CRITMONITOR cfg ||
   CONFIG_SCHED_IRQMONITOR_GETTIME cfg).

(** The number of elements [g_irqvector] is declared with: one per table
    index in the minimal vector table build, one per IRQ otherwise. *)
Definition table_len (cfg : config) : Z :=
  if CONFIG_ARCH_MINIMAL_VECTORTABLE cfg
  then CONFIG_ARCH_NUSER_INTERRUPTS cfg
  else NR_IRQS cfg.

(** ** Vector slots *)

(** Modelled from the spec: [struct irq_info_s] is declared in irq/irq.h,
    which is not part of this file.  A slot holds the handler, its
    argument, the worst-case time in nanoseconds and the invocation count,
    kept either as one 64-bit counter [count] or as two 32-bit words
    [mscount], [lscount].  The record carries both representations; a build
    uses the one its options select and leaves the other alone. *)
Record irq_info_s := mk_irq_info {
  handler : xcpt_t;
  arg : Z;
  time : Z;
  count : Z;
  mscount : Z;
  lscount : Z
}.

Inductive field := Fhandler | Farg | Ftime | Fcount | Fmscount | Flscount.

Definition get_field (f : field) (s : irq_info_s) : Z :=
  match f with
  | Fhandler => handler s
  | Farg => arg s
  | Ftime => time s
  | Fcount => count s
  | Fmscount => mscount s
  | Flscount => lscount s
  end.

Definition set_field (f : field) (v : Z) (s : irq_info_s) : irq_info_s :=
  match f with
  | Fhandler => mk_irq_info v (arg s) (time s) (count s) (mscount s) (lscount s)
  | Farg => mk_irq_info (handler s) v (time s) (count s) (mscount s) (lscount s)
  | Ftime => mk_irq_info (handler s) (arg s) v (count s) (mscount s) (lscount s)
  | Fcount => mk_irq_info (handler s) (arg s) (time s) v (mscount s) (lscount s)
  | Fmscount => mk_irq_info (handler s) (arg s) (time s) (count s) v (lscount s)
  | Flscount => mk_irq_info (handler s) (arg s) (time s) (count s) (mscount s) v
  end.

Definition is_count_field (f : field) : bool :=
  match f with
  | Fcount | Fmscount | Flscount => true
  | _ => false
  end.

(** The logical 64-bit invocation count of a slot: the wide counter, or
    [mscount * 2^32 + lscount]. *)
Definition logical_count (cfg : config) (s : irq_info_s) : Z :=
  if CONFIG_HAVE_LONG_LONG cfg then count s
  else mscount s * 2 ^ 32 + lscount s.

(** C indexes an array without a bounds check: it computes the address of
    element [i] whatever [i] is.  An array is therefore the memory it
    starts, a total map from index to element image, of which the first
    elements (for [g_irqvector], the first [table_len]) are the declared
    ones.  [update f i x] is that memory after [f[i] = x]. *)
Definition update {A : Type} (f : Z -> A) (i : Z) (x : A) : Z -> A :=
  fun j => if j =? i then x else f j.

(** ** Effects *)

Inductive event :=
| Rd (ndx : Z) (f : field)                  (* g_irqvector[ndx].f is read *)
| Wr (ndx : Z) (f : field) (v : Z)          (* g_irqvector[ndx].f = v *)
| Call (vector : xcpt_t) (irq context arg : Z)   (* vector(irq, context, arg) *)
| Randomness (irq : Z)                      (* add_irq_randomness(irq) *)
| Gettime (t : Z)                           (* up_critmon_gettime() gave t *)
| Convert (elapsed : Z) (delta : timespec)  (* up_critmon_convert *)
| Systimespec (ts : timespec)               (* clock_systimespec gave ts *)
| Subtract (e s delta : timespec)           (* clock_timespec_subtract *)
| Running (cpu task : Z).                   (* g_running_tasks[cpu] = task *)

Definition is_call (e : event) : bool :=
  match e with Call _ _ _ _ => true | _ => false end.

Definition is_randomness (e : event) : bool :=
  match e with Randomness _ => true | _ => false end.

Definition is_count_write (e : event) : bool :=
  match e with Wr _ f _ => is_count_field f | _ => false end.

(** Neither a call through a vector nor an offer to the entropy pool. *)
Definition quiet (e : event) : bool :=
  negb (is_call e) && negb (is_randomness e).

(** An access to the count or to the time of a slot. *)
Definition is_accounting (e : event) : bool :=
  match e with
  | Rd _ f => is_count_field f || match f with Ftime => true | _ => false end
  | Wr _ f _ => is_count_field f || match f with Ftime => true | _ => false end
  | _ => false
  end.

(** Any access to a vector slot. *)
Definition is_slot_access (e : event) : bool :=
  match e with Rd _ _ | Wr _ _ _ => true | _ => false end.

(** The [tv_nsec] of the deltas the timing probe obtained. *)
Fixpoint deltas (l : list event) : list Z :=
  match l with
  | [] => []
  | Convert _ d :: l' => tv_nsec d :: deltas l'
  | Subtract _ _ d :: l' => tv_nsec d :: deltas l'
  | _ :: l' => deltas l'
  end.

(** The kernel globals the dispatcher reads and writes.  [W] is everything
    outside the vector table and the running-task array: the timer
    hardware, the scheduler's lists, the entropy pool. *)
Record machine (W : Type) := mk_machine {
  g_irqvector : Z -> irq_info_s;
  g_running_tasks : Z -> Z;
  world : W
}.

Arguments mk_machine {W}.
Arguments g_irqvector {W}.
Arguments g_running_tasks {W}.
Arguments world {W}.

(** What the file consumes from the rest of the kernel: the IRQ map of the
    minimal vector table build (a constant table), the unexpected-ISR
    sentinel, the code behind each function pointer, the entropy hook, the
    two clocks and the scheduler's view of the current CPU and task. *)
Class Platform (W : Type) := {
  g_irqmap : Z -> Z;
  irq_unexpected_isr : xcpt_t;
  isr : xcpt_t -> Z -> Z -> Z -> machine W -> machine W;
  add_irq_randomness : Z -> W -> W;
  up_critmon_gettime : W -> Z * W;
  up_critmon_convert : Z -> timespec;
  clock_systimespec : W -> timespec * W;
  clock_timespec_subtract : timespec -> timespec -> timespec;
  this_cpu : W -> Z;
  this_task : W -> Z
}.

(** The three components of the result of a run. *)
Definition value {S A : Type} (r : A * S * list event) : A := fst (fst r).
Definition final {S A : Type} (r : A * S * list event) : S := snd (fst r).
Definition trace {S A : Type} (r : A * S * list event) : list event := snd r.

Section Dispatch.

Context {W : Type} {PF : Platform W}.

Variable cfg : config.

(** A computation on the machine that returns a value and the effects
    it performed, oldest first. *)
Definition Disp (A : Type) : Type :=
  machine W -> A * machine W * list event.

Definition ret {A} (a : A) : Disp A := fun m => (a, m, []).

Definition bind {A B} (c : Disp A) (k : A -> Disp B) : Disp B :=
  fun m =>
    let r1 := c m in
    let r2 := k (value r1) (final r1) in
    (value r2, final r2, trace r1 ++ trace r2).

Notation "x <- c ;; k" := (bind c (fun x => k))
  (at level 61, c at next level, right associativity).
Notation "c ;; k" := (bind c (fun _ => k))
  (at level 61, right associativity).

(** [g_irqvector[ndx].f] as an rvalue and as an lvalue. *)
Definition load (ndx : Z) (f : field) : Disp Z :=
  fun m => (get_field f (g_irqvector m ndx), m, [Rd ndx f]).

Definition store (ndx : Z) (f : field) (v : Z) : Disp unit :=
  fun m =>
    (tt,
     mk_machine
       (update (g_irqvector m) ndx (set_field f v (g_irqvector m ndx)))
       (g_running_tasks m) (world m),
     [Wr ndx f v]).

(** A call through the function pointer [vector]. *)
Definition invoke (vector : xcpt_t) (irq context a : Z) : Disp unit :=
  fun m => (tt, isr vector irq context a m, [Call vector irq context a]).

Definition on_world {A} (op : W -> A * W) (ev : A -> event) : Disp A :=
  fun m =>
    let r := op (world m) in
    (fst r, mk_machine (g_irqvector m) (g_running_tasks m) (snd r),
     [ev (fst r)]).

Definition emit (e : event) : Disp unit := fun m => (tt, m, [e]).

(** Lines 57-78: [INCR_COUNT(ndx)]. *)
Definition INCR_COUNT (ndx : Z) : Disp unit :=
  if CONFIG_SCHED_IRQMONITOR cfg then
    if CONFIG_HAVE_LONG_LONG cfg then
      c <- load ndx Fcount ;;
      store ndx Fcount (uint64 (c + 1))
    else
      l <- load ndx Flscount ;;
      store ndx Flscount (uint32 (l + 1)) ;;
      if uint32 (l + 1) =? 0 then
        h <- load ndx Fmscount ;;
        store ndx Fmscount (uint32 (h + 1))
      else ret tt
  else ret tt.

(** Lines 104-107 and 121-124: keep the larger of [delta.tv_nsec] and the
    recorded time. *)
Definition keep_worst (ndx : Z) (delta : timespec) : Disp unit :=
  t <- load ndx Ftime ;;
  if tv_nsec delta >? t then store ndx Ftime (tv_nsec delta) else ret tt.

(** Lines 92-131: [CALL_VECTOR(ndx, vector, irq, context, arg)]. *)
Definition CALL_VECTOR (ndx : Z) (vector : xcpt_t) (irq context a : Z)
  : Disp unit :=
  if CONFIG_SCHED_IRQMONITOR cfg then
    if HAVE_PLATFORM_GETTIME cfg then
      start <- on_world up_critmon_gettime Gettime ;;
      invoke vector irq context a ;;
      now <- on_world up_critmon_gettime Gettime ;;
      let elapsed := uint32 (now - start) in
      let delta := up_critmon_convert elapsed in
      emit (Convert elapsed delta) ;;
      keep_worst ndx delta
    else
      start <- on_world clock_systimespec Systimespec ;;
      invoke vector irq context a ;;
      end_ <- on_world clock_systimespec Systimespec ;;
      let delta := clock_timespec_subtract end_ start in
      emit (Subtract end_ start delta) ;;
      keep_worst ndx delta
  else invoke vector irq context a.

(** Lines 189-195 and 198-204: take the handler and its argument from the
    slot when there is a handler, and count the interrupt. *)
Definition take_slot (ndx : Z) (vector : xcpt_t) (a : Z)
  : Disp (xcpt_t * Z * Z) :=
  h <- load ndx Fhandler ;;
  va <- (if negb (h =? NULL) then
           v <- load ndx Fhandler ;;
           x <- load ndx Farg ;;
           ret (v, x)
         else ret (vector, a)) ;;
  INCR_COUNT ndx ;;
  ret (fst va, snd va, ndx).

(** Lines 178-207: the vector, the argument and the index the call is
    made with. *)
Definition select_vector (irq : Z) : Disp (xcpt_t * Z * Z) :=
  let vector := irq_unexpected_isr in
  let a := NULL in
  let ndx := uint32 irq in
  if (0 <? NR_IRQS cfg) && (uint32 irq <? uint32 (NR_IRQS cfg)) then
    if CONFIG_ARCH_MINIMAL_VECTORTABLE cfg then
      let ndx := uint32 (g_irqmap irq) in
      if ndx <? uint32 (CONFIG_ARCH_NUSER_INTERRUPTS cfg) then
        take_slot ndx vector a
      else ret (vector, a, ndx)
    else take_slot ndx vector a
  else ret (vector, a, ndx).

(** Line 224: [g_running_tasks[this_cpu()] = this_task()]. *)
Definition record_running : Disp unit :=
  fun m =>
    let cpu := this_cpu (world m) in
    let task := this_task (world m) in
    (tt,
     mk_machine (g_irqvector m) (update (g_running_tasks m) cpu task)
                (world m),
     [Running cpu task]).

(** Lines 209-213: offer the interrupt to the entropy pool. *)
Definition collect_randomness (irq : Z) : Disp unit :=
  if CONFIG_CRYPTO_RANDOM_POOL_COLLECT_IRQ_RANDOMNESS cfg then
    on_world (fun w => (tt, add_irq_randomness irq w))
             (fun _ => Randomness irq)
  else ret tt.

(** Lines 176-225: [irq_dispatch(irq, context)]. *)
Definition irq_dispatch (irq context : Z) : Disp unit :=
  sel <- select_vector irq ;;
  let '(vector, a, ndx) := sel in
  collect_randomness irq ;;
  CALL_VECTOR ndx vector irq context a ;;
  record_running.

End Dispatch.

(** Dispatching a list of interrupts one after the other, each given as
    [(irq, context)]: the machine after the last one and all the effects. *)
Fixpoint dispatch_all {W : Type} {PF : Platform W} (cfg : config)
    (reqs : list (Z * Z)) (m : machine W) : machine W * list event :=
  match reqs with
  | [] => (m, [])
  | (irq, context) :: rest =>
      let r := irq_dispatch cfg irq context m in
      let '(m', l) := dispatch_all cfg rest (final r) in
      (m', trace r ++ l)
  end.

(** The index [irq] resolves to: itself with the identity mapping, its map
    entry when the map assigns it a slot. *)
Definition resolves {W : Type} {PF : Platform W} (cfg : config)
    (irq ndx : Z) : Prop :=
  0 <= irq < NR_IRQS cfg /\
  if CONFIG_ARCH_MINIMAL_VECTORTABLE cfg
  then ndx = g_irqmap irq /\ g_irqmap irq < CONFIG_ARCH_NUSER_INTERRUPTS cfg
  else ndx = irq.

(** The integer constants fit an [int], and the [NR_IRQS] entries of the
    IRQ map are of an unsigned type no wider than [unsigned int]. *)
Definition wf_config {W : Type} {PF : Platform W} (cfg : config) : Prop :=
  NR_IRQS cfg < 2 ^ 31 /\
  0 <= CONFIG_ARCH_NUSER_INTERRUPTS cfg < 2 ^ 31 /\
  forall irq, 0 <= irq < NR_IRQS cfg -> 0 <= g_irqmap irq < 2 ^ 32.

(** The three ways to miss the table: no IRQs at all or an IRQ number
    that, as an unsigned value, is not below [NR_IRQS]; or, in the minimal
    vector table build, a map entry that is no table index. *)
Definition misses {W : Type} {PF : Platform W} (cfg : config) (irq : Z)
    : Prop :=
  NR_IRQS cfg <= 0 \/ uint32 (NR_IRQS cfg) <= uint32 irq \/
  (CONFIG_ARCH_MINIMAL_VECTORTABLE cfg = true /\
   uint32 (CONFIG_ARCH_NUSER_INTERRUPTS cfg) <= uint32 (g_irqmap irq)).

(** The counter words of a slot are within their types. *)
Definition wf_slot (s : irq_info_s) : Prop :=
  0 <= count s < 2 ^ 64 /\
  0 <= mscount s < 2 ^ 32 /\
  0 <= lscount s < 2 ^ 32.

(** Two slot images carry the same counter words. *)
Definition same_counts (s s' : irq_info_s) : Prop :=
  count s = count s' /\ mscount s = mscount s' /\ lscount s = lscount s'.

(** The single-writer discipline of the counters: no service routine
    writes the counter words of slot [ndx]. *)
Definition isr_keeps_counts {W : Type} {PF : Platform W} (ndx : Z) : Prop :=
  forall v irq context a (m : machine W),
    same_counts (g_irqvector (isr v irq context a m) ndx)
                (g_irqvector m ndx).

(** The same for the worst-case time of slot [ndx]. *)
Definition isr_keeps_time {W : Type} {PF : Platform W} (ndx : Z) : Prop :=
  forall v irq context a (m : machine W),
    time (g_irqvector (isr v irq context a m) ndx)
      = time (g_irqvector m ndx).

(** ** The index of a dispatch

    The three tests of lines 182-187 read as functions of the IRQ number:
    whether the number passes the range test, whether the dispatch goes on
    to the slot, and the value [ndx] has when [CALL_VECTOR] is expanded. *)
Definition in_range (cfg : config) (irq : Z) : bool :=
  (0 <? NR_IRQS cfg) && (uint32 irq <? uint32 (NR_IRQS cfg)).

Definition reaches {W : Type} {PF : Platform W} (cfg : config) (irq : Z)
    : bool :=
  in_range cfg irq &&
  (if CONFIG_ARCH_MINIMAL_VECTORTABLE cfg
   then uint32 (g_irqmap irq) <? uint32 (CONFIG_ARCH_NUSER_INTERRUPTS cfg)
   else true).

Definition call_index {W : Type} {PF : Platform W} (cfg : config) (irq : Z)
    : Z :=
  if in_range cfg irq && CONFIG_ARCH_MINIMAL_VECTORTABLE cfg
  then uint32 (g_irqmap irq)
  else uint32 irq.

(** The dispatch of [irq] counts an interrupt on slot [ndx]. *)
Definition counts_on {W : Type} {PF : Platform W} (cfg : config)
    (ndx : Z) (rq : Z * Z) : bool :=
  reaches cfg (fst rq) && (call_index cfg (fst rq) =? ndx).

(** More kinds of effects. *)
Definition is_clock (e : event) : bool :=
  match e with
  | Gettime _ | Convert _ _ | Systimespec _ | Subtract _ _ _ => true
  | _ => false
  end.

Definition is_running (e : event) : bool :=
  match e with Running _ _ => true | _ => false end.

Definition is_time_write (e : event) : bool :=
  match e with Wr _ Ftime _ => true | _ => false end.

(** The table index an effect accesses, when it accesses the table. *)
Definition access_index (e : event) : option Z :=
  match e with
  | Rd n _ | Wr n _ _ => Some n
  | _ => None
  end.

(** The field of a slot an effect accesses. *)
Definition access_field (e : event) : option field :=
  match e with
  | Rd _ f | Wr _ f _ => Some f
  | _ => None
  end.

(** A write to the registration of a slot: its handler or its argument. *)
Definition is_registration_write (e : event) : bool :=
  match e with
  | Wr _ Fhandler _ | Wr _ Farg _ => true
  | _ => false
  end.

(** The IRQ number and the context a call was made with. *)
Definition call_request (e : event) : Z * Z :=
  match e with
  | Call _ irq context _ => (irq, context)
  | _ => (0, 0)
  end.

(** No service routine writes the registration of slot [ndx]. *)
Definition isr_keeps_registration {W : Type} {PF : Platform W} (ndx : Z)
    : Prop :=
  forall v irq context a (m : machine W),
    handler (g_irqvector (isr v irq context a m) ndx)
      = handler (g_irqvector m ndx) /\
    arg (g_irqvector (isr v irq context a m) ndx) = arg (g_irqvector m ndx).

(** No service routine writes the running-task array. *)
Definition isr_keeps_running {W : Type} {PF : Platform W} : Prop :=
  forall v irq context a (m : machine W) c,
    g_running_tasks (isr v irq context a m) c = g_running_tasks m c.

(** ** A stub platform

    A tick clock that converts 1:1 to nanoseconds, an entropy pool that
    records what it is offered, and service routines whose running time is
    their argument. *)
Module Stub.

Record board := mk_board {
  clock : Z;            (* free-running tick counter *)
  task : Z;             (* head of the ready-to-run list *)
  cpu : Z;              (* index of this CPU *)
  pool : list Z;        (* what the entropy pool was offered *)
  hits : Z              (* bumped by every registered routine *)
}.

Definition SENTINEL : xcpt_t := 57005.

Definition tick (n : Z) (w : board) : board :=
  mk_board (clock w + n) (task w) (cpu w) (pool w) (hits w).

(** The sentinel takes 50 ticks.  Any other routine takes [a] ticks,
    bumps [hits] and makes the task numbered by its address runnable. *)
Definition run_isr (v : xcpt_t) (irq context a : Z) (m : machine board)
  : machine board :=
  if v =? SENTINEL then
    mk_machine (g_irqvector m) (g_running_tasks m) (tick 50 (world m))
  else
    mk_machine (g_irqvector m) (g_running_tasks m)
      (mk_board (clock (world m) + a) v (cpu (world m)) (pool (world m))
                (hits (world m) + 1)).

Definition offer (irq : Z) (w : board) : board :=
  mk_board (clock w) (task w) (cpu w) (irq :: pool w) (hits w).

Definition gettime (w : board) : Z * board := (uint32 (clock w), w).

Definition convert (elapsed : Z) : timespec :=
  mk_timespec (elapsed / 1000000000) (elapsed mod 1000000000).

Definition systimespec (w : board) : timespec * board :=
  (mk_timespec (clock w / 1000000000) (clock w mod 1000000000), w).

Definition subtract (ts1 ts2 : timespec) : timespec :=
  if tv_sec ts1 <? tv_sec ts2 then mk_timespec 0 0
  else if (tv_sec ts1 =? tv_sec ts2) && (tv_nsec ts1 <=? tv_nsec ts2)
  then mk_timespec 0 0
  else if tv_nsec ts1 <? tv_nsec ts2
  then mk_timespec (tv_sec ts1 - tv_sec ts2 - 1)
                   (tv_nsec ts1 + 1000000000 - tv_nsec ts2)
  else mk_timespec (tv_sec ts1 - tv_sec ts2) (tv_nsec ts1 - tv_nsec ts2).

(** The platform with the IRQ map [map]. *)
Definition platform (map : Z -> Z) : Platform board :=
  Build_Platform board map SENTINEL run_isr offer gettime convert
    systimespec subtract cpu task.

Definition identity (irq : Z) : Z := irq.

(** The platform of an identity-mapped build. *)
Definition direct : Platform board := platform identity.

(** IRQ 7 uses slot 2; every other IRQ is unassigned. *)
Definition map7 (irq : Z) : Z := if irq =? 7 then 2 else 4.

(** The platform of a minimal vector table build with that map. *)
Definition mapped : Platform board := platform map7.

Definition empty_slot : irq_info_s := mk_irq_info NULL NULL 0 0 0 0.

Definition boot : machine board :=
  mk_machine (fun _ => empty_slot) (fun _ => 0) (mk_board 100 1 0 [] 0).

(** [irq_attach]: install a routine and its argument in a slot. *)
Definition attach (ndx : Z) (h : xcpt_t) (a : Z) (m : machine board)
  : machine board :=
  mk_machine
    (update (g_irqvector m) ndx
       (set_field Fhandler h (set_field Farg a (g_irqvector m ndx))))
    (g_running_tasks m) (world m).

(** A machine whose slot [ndx] holds the given counter words. *)
Definition preset (ndx : Z) (c ms ls : Z) (m : machine board)
  : machine board :=
  mk_machine
    (update (g_irqvector m) ndx
       (set_field Fcount c
          (set_field Fmscount ms
             (set_field Flscount ls (g_irqvector m ndx)))))
    (g_running_tasks m) (world m).

(** 16 IRQs, identity mapping, monitoring with the wide counter and the
    platform tick clock, entropy collection. *)
Definition direct16 : config :=
  mk_config true true false false false false true 16 16.

(** 16 IRQs, identity mapping, monitoring with the two-word counter. *)
Definition narrow16 : config :=
  mk_config true false false false false false false 16 16.

(** 16 IRQs compressed into a table of 4 slots; two-word counter. *)
Definition minimal4 : config :=
  mk_config true false false false false true false 16 4.

(** Everything optional switched off, identity mapping. *)
Definition bare16 : config :=
  mk_config false true false false false false false 16 16.

End Stub.

(** ** The machine a vector runs on

    What lines 209-217 do to the world around the call, read as functions:
    the offer to the entropy pool, and one reading of the clock the build
    measures with. *)
Definition offered {W : Type} {PF : Platform W} (cfg : config) (irq : Z)
    (w : W) : W :=
  if CONFIG_CRYPTO_RANDOM_POOL_COLLECT_IRQ_RANDOMNESS cfg
  then add_irq_randomness irq w
  else w.

Definition clock_read {W : Type} {PF : Platform W} (cfg : config) (w : W)
    : W :=
  if CONFIG_SCHED_IRQMONITOR cfg then
    if HAVE_PLATFORM_GETTIME cfg
    then snd (up_critmon_gettime w)
    else snd (clock_systimespec w)
  else w.

(** The machine the vector of a dispatch of [irq] is entered on: the
    table as the selection left it, and the world after the offer to the
    entropy pool and the first reading of the clock. *)
Definition entry_machine {W : Type} {PF : Platform W} (cfg : config)
    (irq : Z) (m : machine W) : machine W :=
  mk_machine (g_irqvector (final (select_vector cfg irq m)))
             (g_running_tasks m)
             (clock_read cfg (offered cfg irq (world m))).

(** An observation [obs] of the world in which every service routine
    logs the IRQ number and the context it is called with, by [step], and
    which the clocks and the entropy pool leave alone. *)
Definition logs_calls {W : Type} {PF : Platform W} {P : Type}
    (obs : W -> P) (step : Z -> Z -> P -> P) : Prop :=
  (forall v irq context a (m : machine W),
     obs (world (isr v irq context a m)) = step irq context (obs (world m))) /\
  (forall w, obs (snd (up_critmon_gettime w)) = obs w) /\
  (forall w, obs (snd (clock_systimespec w)) = obs w) /\
  (forall irq w, obs (add_irq_randomness irq w) = obs w).

(** An observation [obs] of the world in which the entropy pool logs what
    it is offered, by [offer], and which the clocks and the service
    routines leave alone. *)
Definition logs_offers {W : Type} {PF : Platform W} {P : Type}
    (obs : W -> P) (offer : Z -> P -> P) : Prop :=
  (forall irq w, obs (add_irq_randomness irq w) = offer irq (obs w)) /\
  (forall w, obs (snd (up_critmon_gettime w)) = obs w) /\
  (forall w, obs (snd (clock_systimespec w)) = obs w) /\
  (forall v irq context a (m : machine W),
     obs (world (isr v irq context a m)) = obs (world m)).

(** ** A platform that keeps a ledger

    Every service routine notes the IRQ number and the context it was
    called with; the clocks stand still. *)
Module Ledger.

Definition book : Type := list (Z * Z).

Definition note (v : xcpt_t) (irq context a : Z) (m : machine book)
  : machine book :=
  mk_machine (g_irqvector m) (g_running_tasks m) ((irq, context) :: world m).

Definition platform : Platform book :=
  Build_Platform book (fun irq => irq) 1 note (fun _ w => w)
    (fun w => (0, w)) (fun _ => mk_timespec 0 0)
    (fun w => (mk_timespec 0 0, w)) (fun _ _ => mk_timespec 0 0)
    (fun _ => 0) (fun _ => 0).

Definition boot : machine book :=
  mk_machine (fun _ => mk_irq_info NULL NULL 0 0 0 0) (fun _ => 0) [].

End Ledger.

(** ** Properties of the dispatcher *)

Section Properties.

Context {W : Type} {PF : Platform W}.
Variable cfg : config.

Ltac run :=
  cbv beta zeta iota delta
    [bind ret load store invoke on_world emit keep_worst record_running
     value final trace fst snd];
  repeat (match goal with
          | |- context [if ?b then _ else _] => destruct b eqn:?
          end;
          cbv beta zeta iota delta [value final trace fst snd]).

(** *** Lists of effects *)

Lemma filter_none {A} (p : A -> bool) l :
  forallb (fun x => negb (p x)) l = true -> filter p l = [].
Proof.
  induction l as [|x l IH]; cbn; [reflexivity|].
  destruct (p x); cbn; [discriminate | exact IH].
Qed.

Lemma forallb_weaken {A} (p q : A -> bool) l :
  (forall x, p x = true -> q x = true) ->
  forallb p l = true -> forallb q l = true.
Proof.
  intros Hpq H. rewrite forallb_forall in *. auto.
Qed.

(** *** Machine integers *)

Lemma uint32_small z : 0 <= z < 2 ^ 32 -> uint32 z = z.
Proof. intros. unfold uint32. apply Z.mod_small. assumption. Qed.

Lemma uint32_range z : 0 <= uint32 z < 2 ^ 32.
Proof. unfold uint32. apply Z.mod_pos_bound. lia. Qed.

Lemma uint64_range z : 0 <= uint64 z < 2 ^ 64.
Proof. unfold uint64. apply Z.mod_pos_bound. lia. Qed.

(** *** The phases of a dispatch *)

Lemma irq_dispatch_phases irq context (m : machine W) :
  let s := select_vector cfg irq m in
  let e := collect_randomness cfg irq (final s) in
  let c := CALL_VECTOR cfg (snd (value s)) (fst (fst (value s))) irq
             context (snd (fst (value s))) (final e) in
  let r := record_running (final c) in
  irq_dispatch cfg irq context m
    = (tt, final r, trace s ++ trace e ++ trace c ++ trace r).
Proof.
  unfold irq_dispatch, bind.
  destruct (select_vector cfg irq m) as [[[[v a] ndx] m1] l].
  reflexivity.
Qed.

Lemma select_vector_quiet irq (m : machine W) :
  forallb quiet (trace (select_vector cfg irq m)) = true.
Proof.
  unfold select_vector, take_slot, INCR_COUNT. run; reflexivity.
Qed.

Lemma collect_randomness_trace irq (m : machine W) :
  trace (collect_randomness cfg irq m)
    = if CONFIG_CRYPTO_RANDOM_POOL_COLLECT_IRQ_RANDOMNESS cfg
      then [Randomness irq] else [].
Proof.
  unfold collect_randomness. run; reflexivity.
Qed.

Lemma collect_randomness_table irq (m : machine W) :
  g_irqvector (final (collect_randomness cfg irq m)) = g_irqvector m.
Proof.
  unfold collect_randomness. run; reflexivity.
Qed.

(** An IRQ in range that has a slot goes through [take_slot]. *)
Lemma select_vector_resolved irq ndx (m : machine W) :
  wf_config cfg -> resolves cfg irq ndx ->
  select_vector cfg irq m = take_slot cfg ndx irq_unexpected_isr NULL m.
Proof.
  intros (Hnr & Hnu & Hmap) (Hirq & Hres). unfold select_vector.
  assert (Hi : uint32 irq = irq) by (apply uint32_small; lia).
  assert (Hn : uint32 (NR_IRQS cfg) = NR_IRQS cfg)
    by (apply uint32_small; lia).
  rewrite Hi, Hn.
  replace (0 <? NR_IRQS cfg) with true by (symmetry; apply Z.ltb_lt; lia).
  replace (irq <? NR_IRQS cfg) with true by (symmetry; apply Z.ltb_lt; lia).
  cbn [andb].
  destruct (CONFIG_ARCH_MINIMAL_VECTORTABLE cfg).
  - destruct Hres as (-> & Hlt). specialize (Hmap irq Hirq).
    rewrite (uint32_small (g_irqmap irq)) by lia.
    rewrite (uint32_small (CONFIG_ARCH_NUSER_INTERRUPTS cfg)) by lia.
    replace (g_irqmap irq <? CONFIG_ARCH_NUSER_INTERRUPTS cfg) with true
      by (symmetry; apply Z.ltb_lt; lia).
    reflexivity.
  - subst ndx. reflexivity.
Qed.

(** What [take_slot] hands to the call. *)
Lemma take_slot_value ndx v0 a0 (m : machine W) :
  value (take_slot cfg ndx v0 a0 m)
    = if handler (g_irqvector m ndx) =? NULL
      then (v0, a0, ndx)
      else (handler (g_irqvector m ndx), arg (g_irqvector m ndx), ndx).
Proof.
  unfold take_slot. cbv beta zeta iota delta
    [bind ret load value final trace fst snd get_field].
  destruct (handler (g_irqvector m ndx) =? NULL); reflexivity.
Qed.

Lemma take_slot_final ndx v0 a0 (m : machine W) :
  final (take_slot cfg ndx v0 a0 m) = final (INCR_COUNT cfg ndx m).
Proof.
  unfold take_slot. cbv beta zeta iota delta
    [bind ret load value final trace fst snd get_field].
  destruct (handler (g_irqvector m ndx) =? NULL); reflexivity.
Qed.

Lemma take_slot_trace ndx v0 a0 (m : machine W) :
  trace (take_slot cfg ndx v0 a0 m)
    = Rd ndx Fhandler
      :: (if handler (g_irqvector m ndx) =? NULL then []
          else [Rd ndx Fhandler; Rd ndx Farg])
      ++ trace (INCR_COUNT cfg ndx m).
Proof.
  unfold take_slot. cbv beta zeta iota delta
    [bind ret load value final trace fst snd get_field].
  destruct (handler (g_irqvector m ndx) =? NULL); cbn [negb app];
    rewrite app_nil_r; reflexivity.
Qed.

Lemma select_vector_missed irq (m : machine W) :
  misses cfg irq ->
  exists ndx,
    select_vector cfg irq m = (irq_unexpected_isr, NULL, ndx, m, []).
Proof.
  unfold misses, select_vector. intros H.
  destruct ((0 <? NR_IRQS cfg) && (uint32 irq <? uint32 (NR_IRQS cfg)))
    eqn:Hin.
  - apply andb_prop in Hin. destruct Hin as [H0 H1].
    apply Z.ltb_lt in H0, H1.
    destruct H as [H | [H | [Hmin H]]]; try lia.
    rewrite Hmin.
    replace (uint32 (g_irqmap irq)
             <? uint32 (CONFIG_ARCH_NUSER_INTERRUPTS cfg)) with false
      by (symmetry; apply Z.ltb_ge; lia).
    eexists. reflexivity.
  - eexists. reflexivity.
Qed.

Lemma CALL_VECTOR_split ndx v irq context a (m : machine W) :
  exists pre post,
    trace (CALL_VECTOR cfg ndx v irq context a m)
      = pre ++ Call v irq context a :: post /\
    forallb (fun e => negb (is_call e) && negb (is_randomness e)
                      && negb (is_count_write e)) (pre ++ post) = true.
Proof.
  unfold CALL_VECTOR. run.
  all: try (eexists [_], _; split; [reflexivity | reflexivity]).
  all: try (eexists [], _; split; [reflexivity | reflexivity]).
Qed.

Lemma CALL_VECTOR_calls ndx v irq context a (m : machine W) :
  filter is_call (trace (CALL_VECTOR cfg ndx v irq context a m))
    = [Call v irq context a].
Proof.
  destruct (CALL_VECTOR_split ndx v irq context a m)
    as (pre & post & -> & Hq).
  rewrite forallb_app in Hq. apply andb_prop in Hq. destruct Hq as [Hp Hq].
  rewrite filter_app. cbn [filter is_call].
  rewrite !filter_none; [reflexivity | |].
  - eapply forallb_weaken; [|exact Hq]. intros e He.
    apply andb_prop in He. destruct He as [He _].
    apply andb_prop in He. tauto.
  - eapply forallb_weaken; [|exact Hp]. intros e He.
    apply andb_prop in He. destruct He as [He _].
    apply andb_prop in He. tauto.
Qed.

(** The calls of a dispatch: the single call [CALL_VECTOR] makes. *)
Lemma irq_dispatch_calls irq context (m : machine W) :
  let s := select_vector cfg irq m in
  filter is_call (trace (irq_dispatch cfg irq context m))
    = [Call (fst (fst (@value (machine W) (xcpt_t * Z * Z) s))) irq
            context (snd (fst (@value (machine W) (xcpt_t * Z * Z) s)))].
Proof.
  intros s. rewrite irq_dispatch_phases. fold s.
  unfold trace at 1. cbn [snd]. rewrite !filter_app.
  rewrite (filter_none is_call (trace s)).
  2:{ eapply forallb_weaken; [|apply select_vector_quiet].
      intros e He. apply andb_prop in He. tauto. }
  rewrite collect_randomness_trace, CALL_VECTOR_calls.
  destruct (CONFIG_CRYPTO_RANDOM_POOL_COLLECT_IRQ_RANDOMNESS cfg);
    reflexivity.
Qed.

(** C10: when the dispatch falls back on the unexpected-ISR sentinel
    (IRQ out of range, no slot assigned by the map, or no handler in the
    slot), the only call it makes is to the sentinel, and its third
    argument is the null pointer. *)
Theorem C10_sentinel_gets_null irq context ndx (m : machine W) :
  misses cfg irq \/
  (wf_config cfg /\ resolves cfg irq ndx /\
   handler (g_irqvector m ndx) = NULL) ->
  filter is_call (trace (irq_dispatch cfg irq context m))
    = [Call irq_unexpected_isr irq context NULL].
Proof.
  intros [Hmiss | (Hwf & Hres & Hh)]; rewrite irq_dispatch_calls; cbv zeta.
  - destruct (select_vector_missed irq m Hmiss) as [n ->]. reflexivity.
  - rewrite (select_vector_resolved irq ndx m Hwf Hres), take_slot_value.
    rewrite Hh. reflexivity.
Qed.

(** The effects of a dispatch, around its single call. *)
Lemma irq_dispatch_split irq context (m : machine W) :
  let s := select_vector cfg irq m in
  let r := irq_dispatch cfg irq context m in
  exists pre post v a,
    trace r
      = (trace s
         ++ (if CONFIG_CRYPTO_RANDOM_POOL_COLLECT_IRQ_RANDOMNESS cfg
             then [Randomness irq] else [])
         ++ pre)
        ++ Call v irq context a
        :: post
        ++ [Running (this_cpu (world (final r)))
                    (this_task (world (final r)))] /\
    forallb (fun e => negb (is_call e) && negb (is_randomness e)
                      && negb (is_count_write e)) (pre ++ post) = true.
Proof.
  intros s r. subst r. rewrite irq_dispatch_phases. fold s.
  cbv zeta. unfold trace at 1, final at 1 2. cbn [fst snd].
  rewrite collect_randomness_trace.
  match goal with
  | |- context [CALL_VECTOR cfg ?n ?v irq context ?a ?m1] =>
      destruct (CALL_VECTOR_split n v irq context a m1)
        as (pre & post & -> & Hq);
      exists pre, post, v, a
  end.
  split; [|exact Hq].
  unfold record_running, trace, final. cbn [fst snd].
  cbn [world]. repeat rewrite <- app_assoc. reflexivity.
Qed.

(** C7: whatever the IRQ number, the last effect of a dispatch is the
    write of the running task of this CPU, after the call of the vector
    has returned; the task written is the one [this_task()] gives when
    the dispatch returns, and the slot holds it. *)
Theorem C7_running_task_recorded irq context (m : machine W) :
  let r := irq_dispatch cfg irq context m in
  let m' := final r in
  exists before v a after,
    trace r
      = before ++ Call v irq context a :: after
        ++ [Running (this_cpu (world m')) (this_task (world m'))] /\
    forallb (fun e => negb (is_call e)) after = true /\
    g_running_tasks m' (this_cpu (world m')) = this_task (world m').
Proof.
  intros r m'.
  destruct (irq_dispatch_split irq context m)
    as (pre & post & v & a & Htr & Hq).
  fold r in Htr. fold m' in Htr.
  eexists _, v, a, post. split; [exact Htr|]. split.
  - rewrite forallb_app in Hq. apply andb_prop in Hq.
    eapply forallb_weaken; [|exact (proj2 Hq)].
    intros e He. apply andb_prop in He. destruct He as [He _].
    apply andb_prop in He. tauto.
  - subst m' r. rewrite irq_dispatch_phases.
    cbv zeta. unfold final at 1 2. cbn [fst snd].
    unfold record_running, final. cbn [fst snd g_running_tasks world].
    unfold update. rewrite Z.eqb_refl. reflexivity.
Qed.

(** C8: in the sequence of effects of a dispatch, every write to a
    counter word comes strictly before the call of the handler or of the
    sentinel: nothing after the call, and no part of the call's own
    bracket, writes a counter. *)
Theorem C8_count_written_before_call irq context (m : machine W) :
  exists before v a after,
    trace (irq_dispatch cfg irq context m)
      = before ++ Call v irq context a :: after /\
    forallb (fun e => negb (is_call e)) before = true /\
    forallb (fun e => negb (is_call e) && negb (is_count_write e)) after
      = true.
Proof.
  destruct (irq_dispatch_split irq context m)
    as (pre & post & v & a & Htr & Hq).
  cbv zeta in Htr. rewrite forallb_app in Hq. apply andb_prop in Hq.
  destruct Hq as [Hpre Hpost].
  eexists _, v, a, _. split; [exact Htr|]. split.
  - rewrite !forallb_app. repeat (apply andb_true_intro; split).
    + eapply forallb_weaken; [|apply select_vector_quiet].
      intros e He. apply andb_prop in He. tauto.
    + destruct (CONFIG_CRYPTO_RANDOM_POOL_COLLECT_IRQ_RANDOMNESS cfg);
        reflexivity.
    + eapply forallb_weaken; [|exact Hpre]. intros e He.
      apply andb_prop in He. destruct He as [He _].
      apply andb_prop in He. tauto.
  - rewrite forallb_app. apply andb_true_intro. split; [|reflexivity].
    eapply forallb_weaken; [|exact Hpost]. intros e He.
    apply andb_prop in He. destruct He as [He Hc].
    apply andb_prop in He. destruct He as [He _]. rewrite He, Hc.
    reflexivity.
Qed.

(** *** The time access of the monitoring call bracket *)

(** With monitoring, [CALL_VECTOR] reads the time of the slot at the
    index it is given, whatever that index is. *)
Lemma CALL_VECTOR_reads_time ndx v irq context a (m : machine W) :
  CONFIG_SCHED_IRQMONITOR cfg = true ->
  In (Rd ndx Ftime) (trace (CALL_VECTOR cfg ndx v irq context a m)).
Proof.
  intros Hmon. unfold CALL_VECTOR. rewrite Hmon. run;
    repeat (first [left; reflexivity | right]).
Qed.

(** An IRQ that misses the table is dispatched with its own number, or
    with its map entry, as index: with monitoring, the time field at
    that index is read although no slot was selected. *)
Lemma monitored_miss_reads_time irq context (m : machine W) :
  CONFIG_SCHED_IRQMONITOR cfg = true ->
  misses cfg irq ->
  In (Rd (uint32 irq) Ftime) (trace (irq_dispatch cfg irq context m)) \/
  In (Rd (uint32 (g_irqmap irq)) Ftime)
     (trace (irq_dispatch cfg irq context m)).
Proof.
  intros Hmon Hmiss. rewrite irq_dispatch_phases. cbv zeta.
  unfold trace at 1 3. cbn [snd].
  assert (Hn : snd (value (select_vector cfg irq m)) = uint32 irq \/
               snd (value (select_vector cfg irq m))
                 = uint32 (g_irqmap irq)).
  { unfold select_vector. run; auto.
    all: destruct Hmiss as [H | [H | [Hmin H]]];
      apply andb_prop in Heqb; destruct Heqb as [H0 H1];
      apply Z.ltb_lt in H0, H1; try lia; try congruence.
    all: apply Z.ltb_lt in Heqb1; lia. }
  destruct Hn as [Hn | Hn]; [left | right]; rewrite <- Hn;
    apply in_or_app; right; apply in_or_app; right;
    apply in_or_app; left; apply CALL_VECTOR_reads_time; exact Hmon.
Qed.

(** Without monitoring, an IRQ that misses the table touches no slot. *)
Lemma unmonitored_miss_is_silent irq context (m : machine W) :
  CONFIG_SCHED_IRQMONITOR cfg = false ->
  misses cfg irq ->
  filter is_slot_access (trace (irq_dispatch cfg irq context m)) = [].
Proof.
  intros Hmon Hmiss. rewrite irq_dispatch_phases. cbv zeta.
  destruct (select_vector_missed irq m Hmiss) as [n ->].
  unfold trace at 1. cbn [snd]. rewrite collect_randomness_trace.
  unfold CALL_VECTOR. rewrite Hmon.
  destruct (CONFIG_CRYPTO_RANDOM_POOL_COLLECT_IRQ_RANDOMNESS cfg);
    reflexivity.
Qed.

(** *** Counters *)

Lemma update_same {A} (f : Z -> A) i x : update f i x i = x.
Proof. unfold update. rewrite Z.eqb_refl. reflexivity. Qed.

Lemma same_counts_logical s s' :
  same_counts s s' -> logical_count cfg s = logical_count cfg s'.
Proof.
  intros (Hc & Hm & Hl). unfold logical_count.
  rewrite Hc, Hm, Hl. reflexivity.
Qed.

Lemma same_counts_wf s s' : same_counts s s' -> wf_slot s' -> wf_slot s.
Proof.
  intros (Hc & Hm & Hl). unfold wf_slot. rewrite Hc, Hm, Hl. tauto.
Qed.

Lemma carry_word ls ms :
  0 <= ms < 2 ^ 32 -> 0 <= ls < 2 ^ 32 ->
  (if uint32 (ls + 1) =? 0 then uint32 (ms + 1) else ms) * 2 ^ 32
    + uint32 (ls + 1)
  = uint64 (ms * 2 ^ 32 + ls + 1).
Proof.
  intros Hms Hls. unfold uint32, uint64.
  destruct (Z.eq_dec ls (2 ^ 32 - 1)) as [-> | Hne].
  - replace (2 ^ 32 - 1 + 1) with (2 ^ 32) by lia.
    rewrite Z.mod_same by lia. cbn [Z.eqb].
    replace (ms * 2 ^ 32 + (2 ^ 32 - 1) + 1) with ((ms + 1) * 2 ^ 32)
      by lia.
    change (2 ^ 64) with (2 ^ 32 * 2 ^ 32).
    rewrite Z.mul_mod_distr_r by lia. lia.
  - rewrite (Z.mod_small (ls + 1)) by lia.
    replace (ls + 1 =? 0) with false by (symmetry; apply Z.eqb_neq; lia).
    rewrite Z.mod_small; lia.
Qed.

(** One [INCR_COUNT] adds one to the logical count, modulo 2^64. *)
Lemma INCR_COUNT_logical ndx (m : machine W) :
  CONFIG_SCHED_IRQMONITOR cfg = true ->
  wf_slot (g_irqvector m ndx) ->
  let m' := final (INCR_COUNT cfg ndx m) in
  logical_count cfg (g_irqvector m' ndx)
    = uint64 (logical_count cfg (g_irqvector m ndx) + 1) /\
  wf_slot (g_irqvector m' ndx).
Proof.
  intros Hmon (Hc & Hms & Hls). unfold INCR_COUNT, logical_count, wf_slot.
  rewrite Hmon. destruct (CONFIG_HAVE_LONG_LONG cfg).
  - run. cbn [g_irqvector]. rewrite update_same.
    cbn [get_field set_field count mscount lscount].
    pose proof (uint64_range (count (g_irqvector m ndx) + 1)).
    repeat split; tauto || lia.
  - pose proof (uint32_range (lscount (g_irqvector m ndx) + 1)).
    pose proof (uint32_range (mscount (g_irqvector m ndx) + 1)).
    pose proof (carry_word _ _ Hms Hls) as Hcw.
    cbv beta zeta iota delta
      [bind ret load store value final trace fst snd].
    cbn [g_irqvector get_field].
    destruct (uint32 (lscount (g_irqvector m ndx) + 1) =? 0) eqn:Hz;
      repeat first
        [ rewrite update_same
        | progress cbn [fst snd g_irqvector get_field set_field
                        lscount mscount count] ];
      rewrite <- Hcw; repeat split; tauto || lia.
Qed.

(** The call bracket leaves the counter words of every slot that the
    service routines leave alone as they were. *)
Lemma CALL_VECTOR_counts n v irq context a ndx (m : machine W) :
  isr_keeps_counts ndx ->
  same_counts (g_irqvector (final (CALL_VECTOR cfg n v irq context a m)) ndx)
              (g_irqvector m ndx).
Proof.
  intros Hk. unfold CALL_VECTOR. run; cbn [g_irqvector];
    try match goal with
        | |- context [update _ n _ ndx] =>
            unfold update; destruct (ndx =? n) eqn:Hn;
            [apply Z.eqb_eq in Hn; subst n|]
        end;
    match goal with
    | |- context [isr v irq context a ?m0] =>
        destruct (Hk v irq context a m0) as (Hc & Hm & Hl);
        cbn [g_irqvector] in Hc, Hm, Hl
    end;
    unfold same_counts; cbn [set_field count mscount lscount]; auto.
Qed.

Lemma irq_dispatch_final irq context (m : machine W) :
  let s := select_vector cfg irq m in
  let e := collect_randomness cfg irq (final s) in
  let c := CALL_VECTOR cfg (snd (value s)) (fst (fst (value s))) irq
             context (snd (fst (value s))) (final e) in
  g_irqvector (final (irq_dispatch cfg irq context m))
    = g_irqvector (final c).
Proof.
  cbv zeta. rewrite irq_dispatch_phases. reflexivity.
Qed.

(** After a dispatch that reaches the counter update of slot [ndx], the
    counter words of the slot are those [INCR_COUNT] left. *)
Lemma irq_dispatch_counts irq context ndx (m : machine W) :
  wf_config cfg ->
  resolves cfg irq ndx ->
  isr_keeps_counts ndx ->
  same_counts (g_irqvector (final (irq_dispatch cfg irq context m)) ndx)
              (g_irqvector (final (INCR_COUNT cfg ndx m)) ndx).
Proof.
  intros Hwf Hres Hk.
  pose proof (irq_dispatch_final irq context m) as Hfin.
  cbv zeta in Hfin. rewrite Hfin.
  match goal with
  | |- context [CALL_VECTOR cfg ?n ?v irq context ?a ?m1] =>
      pose proof (CALL_VECTOR_counts n v irq context a ndx m1 Hk) as Hsame
  end.
  rewrite collect_randomness_table in Hsame.
  rewrite (select_vector_resolved irq ndx m Hwf Hres) in Hsame |- *.
  rewrite take_slot_final in Hsame |- *.
  exact Hsame.
Qed.

(** One dispatch that reaches the counter update of slot [ndx] adds one
    to its logical count, modulo 2^64. *)
Lemma irq_dispatch_count irq context ndx (m : machine W) :
  CONFIG_SCHED_IRQMONITOR cfg = true ->
  wf_config cfg ->
  resolves cfg irq ndx ->
  isr_keeps_counts ndx ->
  wf_slot (g_irqvector m ndx) ->
  let m' := final (irq_dispatch cfg irq context m) in
  logical_count cfg (g_irqvector m' ndx)
    = uint64 (logical_count cfg (g_irqvector m ndx) + 1) /\
  wf_slot (g_irqvector m' ndx).
Proof.
  intros Hmon Hwf Hres Hk Hslot m'. subst m'.
  destruct (INCR_COUNT_logical ndx m Hmon Hslot) as [Hlog Hwf'].
  cbv zeta in Hlog, Hwf'.
  pose proof (irq_dispatch_counts irq context ndx m Hwf Hres Hk) as Hsame.
  split.
  - rewrite (same_counts_logical _ _ Hsame). exact Hlog.
  - exact (same_counts_wf _ _ Hsame Hwf').
Qed.

Lemma logical_count_range s :
  wf_slot s -> 0 <= logical_count cfg s < 2 ^ 64.
Proof.
  intros (Hc & Hm & Hl). unfold logical_count.
  destruct (CONFIG_HAVE_LONG_LONG cfg); [exact Hc | nia].
Qed.

Lemma dispatch_all_count reqs ndx :
  CONFIG_SCHED_IRQMONITOR cfg = true ->
  wf_config cfg ->
  isr_keeps_counts ndx ->
  Forall (fun rq => resolves cfg (fst rq) ndx) reqs ->
  forall m : machine W,
    wf_slot (g_irqvector m ndx) ->
    logical_count cfg (g_irqvector (fst (dispatch_all cfg reqs m)) ndx)
      = uint64 (logical_count cfg (g_irqvector m ndx)
                + Z.of_nat (length reqs)).
Proof.
  intros Hmon Hwf Hk Hall.
  induction Hall as [|[irq context] rest Hres Hrest IH]; intros m Hslot.
  - cbn [dispatch_all fst length Z.of_nat]. rewrite Z.add_0_r.
    unfold uint64. symmetry. apply Z.mod_small.
    apply logical_count_range. exact Hslot.
  - cbn [dispatch_all]. cbn [fst] in Hres.
    destruct (irq_dispatch_count irq context ndx m Hmon Hwf Hres Hk Hslot)
      as [Hone Hslot'].
    cbv zeta in Hone, Hslot'.
    specialize (IH (final (irq_dispatch cfg irq context m)) Hslot').
    destruct (dispatch_all cfg rest (final (irq_dispatch cfg irq context m)))
      as [m' l].
    cbn [fst] in IH |- *. rewrite IH, Hone.
    unfold uint64. rewrite Z.add_mod_idemp_l by lia.
    f_equal. cbn [length]. lia.
Qed.

(** In the two-word build, [INCR_COUNT] wraps the low word and carries
    into the high word when the low word became zero. *)
Lemma INCR_COUNT_words ndx (m : machine W) :
  CONFIG_SCHED_IRQMONITOR cfg = true ->
  CONFIG_HAVE_LONG_LONG cfg = false ->
  let s := g_irqvector m ndx in
  let s' := g_irqvector (final (INCR_COUNT cfg ndx m)) ndx in
  lscount s' = uint32 (lscount s + 1) /\
  mscount s' = if uint32 (lscount s + 1) =? 0
               then uint32 (mscount s + 1) else mscount s.
Proof.
  intros Hmon Hll. unfold INCR_COUNT. rewrite Hmon, Hll.
  cbv beta zeta iota delta [bind ret load store value final trace fst snd].
  cbn [g_irqvector get_field].
  destruct (uint32 (lscount (g_irqvector m ndx) + 1) =? 0);
    repeat first
      [ rewrite update_same
      | progress cbn [fst snd g_irqvector get_field set_field
                      lscount mscount count] ];
    split; reflexivity.
Qed.

(** C4, as amended: with monitoring enabled, K dispatches that reach the
    counter update of one slot leave its logical count at the initial
    value plus K reduced modulo 2^64, in both representations, which is
    the initial value plus K as long as that fits 64 bits; in the
    two-word build one such dispatch from [lscount = 0xFFFFFFFF] and
    [mscount = h] gives [lscount = 0] and [mscount = (h + 1) mod 2^32]. *)
Theorem C4_count_after_dispatches reqs ndx (m : machine W) :
  CONFIG_SCHED_IRQMONITOR cfg = true ->
  wf_config cfg ->
  isr_keeps_counts ndx ->
  Forall (fun rq => resolves cfg (fst rq) ndx) reqs ->
  wf_slot (g_irqvector m ndx) ->
  let before := logical_count cfg (g_irqvector m ndx) in
  let K := Z.of_nat (length reqs) in
  let after :=
    logical_count cfg (g_irqvector (fst (dispatch_all cfg reqs m)) ndx) in
  after = uint64 (before + K) /\
  (before + K < 2 ^ 64 -> after = before + K) /\
  (CONFIG_HAVE_LONG_LONG cfg = false ->
   lscount (g_irqvector m ndx) = 2 ^ 32 - 1 ->
   forall irq context,
     resolves cfg irq ndx ->
     let s' := g_irqvector (final (irq_dispatch cfg irq context m)) ndx in
     lscount s' = 0 /\
     mscount s' = uint32 (mscount (g_irqvector m ndx) + 1)).
Proof.
  intros Hmon Hwf Hk Hall Hslot before K after.
  assert (Hafter : after = uint64 (before + K))
    by (apply dispatch_all_count; assumption).
  split; [exact Hafter|]. split.
  - intros Hfit. rewrite Hafter. unfold uint64. apply Z.mod_small.
    pose proof (logical_count_range _ Hslot). subst before K. lia.
  - intros Hll Hls irq context Hres s'. subst s'.
    destruct (irq_dispatch_counts irq context ndx m Hwf Hres Hk)
      as (_ & Hm & Hl).
    destruct (INCR_COUNT_words ndx m Hmon Hll) as [Hl' Hm'].
    cbv zeta in Hl', Hm'. rewrite Hm, Hl, Hl', Hm', Hls.
    replace (2 ^ 32 - 1 + 1) with (2 ^ 32) by lia.
    unfold uint32 at 1 2. rewrite Z.mod_same by lia.
    split; reflexivity.
Qed.


(** *** Worst-case time *)

Lemma deltas_app l1 l2 : deltas (l1 ++ l2) = deltas l1 ++ deltas l2.
Proof.
  induction l1 as [|e l1 IH]; [reflexivity|].
  destruct e; cbn [app deltas]; rewrite IH; reflexivity.
Qed.

Lemma select_vector_deltas irq (m : machine W) :
  deltas (trace (select_vector cfg irq m)) = [].
Proof.
  unfold select_vector, take_slot, INCR_COUNT. run; reflexivity.
Qed.

Lemma select_vector_time irq ndx (m : machine W) :
  time (g_irqvector (final (select_vector cfg irq m)) ndx)
    = time (g_irqvector m ndx).
Proof.
  unfold select_vector, take_slot, INCR_COUNT. run; cbn [g_irqvector];
    unfold update;
    repeat match goal with
           | |- context [if ?x =? ?y then _ else _] =>
               destruct (Z.eqb_spec x y)
           end;
    subst; cbn [set_field time]; reflexivity.
Qed.

Lemma max_of_gt d t : (if d >? t then d else t) = Z.max t d.
Proof.
  destruct (d >? t) eqn:H.
  - apply Z.gtb_lt in H. lia.
  - rewrite Z.gtb_ltb in H. apply Z.ltb_ge in H. lia.
Qed.

(** With monitoring, the call bracket measures one delta and leaves in
    the slot it was given the larger of the recorded time and the
    [tv_nsec] of that delta. *)
Lemma CALL_VECTOR_time ndx v irq context a (m : machine W) :
  CONFIG_SCHED_IRQMONITOR cfg = true ->
  isr_keeps_time ndx ->
  let c := CALL_VECTOR cfg ndx v irq context a m in
  exists d,
    deltas (trace c) = [d] /\
    time (g_irqvector (final c) ndx) = Z.max (time (g_irqvector m ndx)) d.
Proof.
  intros Hmon Hk c. subst c. unfold CALL_VECTOR. rewrite Hmon.
  destruct (HAVE_PLATFORM_GETTIME cfg);
    cbv beta zeta iota delta
      [bind ret load store invoke on_world emit keep_worst
       value final trace fst snd];
    cbn [g_irqvector get_field];
    match goal with
    | |- context [isr v irq context a ?m0] =>
        pose proof (Hk v irq context a m0) as Ht;
        cbn [g_irqvector] in Ht
    end;
    match goal with
    | |- context [if ?d >? ?t then _ else _] =>
        exists d; pose proof (max_of_gt d t) as Hmax;
        destruct (d >? t)
    end;
    cbv beta zeta iota delta [fst snd]; cbn [g_irqvector app deltas];
    rewrite ?update_same; cbn [set_field time]; rewrite <- Ht;
    (split; [reflexivity | exact Hmax]).
Qed.

Lemma irq_dispatch_time irq context ndx (m : machine W) :
  CONFIG_SCHED_IRQMONITOR cfg = true ->
  wf_config cfg ->
  resolves cfg irq ndx ->
  isr_keeps_time ndx ->
  let r := irq_dispatch cfg irq context m in
  exists d,
    deltas (trace r) = [d] /\
    time (g_irqvector (final r) ndx) = Z.max (time (g_irqvector m ndx)) d.
Proof.
  intros Hmon Hwf Hres Hk r. subst r.
  pose proof (irq_dispatch_final irq context m) as Hfin.
  cbv zeta in Hfin. rewrite Hfin. clear Hfin.
  rewrite irq_dispatch_phases. cbv zeta. unfold trace at 1. cbn [snd].
  rewrite !deltas_app, select_vector_deltas, collect_randomness_trace.
  assert (Hn : snd (value (select_vector cfg irq m)) = ndx).
  { rewrite (select_vector_resolved irq ndx m Hwf Hres), take_slot_value.
    destruct (handler (g_irqvector m ndx) =? NULL); reflexivity. }
  rewrite Hn.
  match goal with
  | |- context [CALL_VECTOR cfg ndx ?v irq context ?a ?m1] =>
      destruct (CALL_VECTOR_time ndx v irq context a m1 Hmon Hk)
        as (d & Hd & Ht)
  end.
  exists d. cbv zeta in Hd, Ht. rewrite Hd, Ht.
  rewrite collect_randomness_table, select_vector_time.
  split; [|reflexivity].
  destruct (CONFIG_CRYPTO_RANDOM_POOL_COLLECT_IRQ_RANDOMNESS cfg);
    reflexivity.
Qed.

Lemma dispatch_all_app r1 r2 (m : machine W) :
  dispatch_all cfg (r1 ++ r2) m
    = (fst (dispatch_all cfg r2 (fst (dispatch_all cfg r1 m))),
       snd (dispatch_all cfg r1 m)
       ++ snd (dispatch_all cfg r2 (fst (dispatch_all cfg r1 m)))).
Proof.
  revert m. induction r1 as [|[irq context] r1 IH]; intros m.
  - cbn [app dispatch_all fst snd].
    destruct (dispatch_all cfg r2 m); reflexivity.
  - cbn [app dispatch_all]. rewrite IH.
    destruct (dispatch_all cfg r1 (final (irq_dispatch cfg irq context m))).
    cbn [fst snd]. rewrite app_assoc. reflexivity.
Qed.

Lemma fold_max_ge l : forall t, t <= fold_left Z.max l t.
Proof.
  induction l as [|d l IH]; intros t; cbn [fold_left]; [lia|].
  specialize (IH (Z.max t d)). lia.
Qed.

Lemma dispatch_all_time reqs ndx :
  CONFIG_SCHED_IRQMONITOR cfg = true ->
  wf_config cfg ->
  isr_keeps_time ndx ->
  Forall (fun rq => resolves cfg (fst rq) ndx) reqs ->
  forall m : machine W,
    let r := dispatch_all cfg reqs m in
    length (deltas (snd r)) = length reqs /\
    time (g_irqvector (fst r) ndx)
      = fold_left Z.max (deltas (snd r)) (time (g_irqvector m ndx)).
Proof.
  intros Hmon Hwf Hk Hall.
  induction Hall as [|[irq context] rest Hres Hrest IH]; intros m.
  - split; reflexivity.
  - cbn [dispatch_all]. cbn [fst] in Hres.
    destruct (irq_dispatch_time irq context ndx m Hmon Hwf Hres Hk)
      as (d & Hd & Ht).
    cbv zeta in Hd, Ht.
    specialize (IH (final (irq_dispatch cfg irq context m))).
    cbv zeta in IH.
    destruct (dispatch_all cfg rest (final (irq_dispatch cfg irq context m)))
      as [m' l].
    cbn [fst snd] in IH |- *. destruct IH as [IHlen IHt].
    rewrite deltas_app, Hd. cbn [app length fold_left].
    rewrite IHlen, IHt, Ht. split; reflexivity.
Qed.

(** C5: with monitoring enabled, over any sequence of dispatches that
    target one slot (whose time the service routines do not write), each
    dispatch measures one delta, the slot's time after the sequence is
    the maximum of its initial value and the [tv_nsec] of the measured
    deltas, and the time after any prefix of the sequence is at most the
    time after the whole: it never decreases. *)
Theorem C5_worst_case_time reqs ndx (m : machine W) :
  CONFIG_SCHED_IRQMONITOR cfg = true ->
  wf_config cfg ->
  isr_keeps_time ndx ->
  Forall (fun rq => resolves cfg (fst rq) ndx) reqs ->
  let r := dispatch_all cfg reqs m in
  length (deltas (snd r)) = length reqs /\
  time (g_irqvector (fst r) ndx)
    = fold_left Z.max (deltas (snd r)) (time (g_irqvector m ndx)) /\
  forall r1 r2,
    reqs = r1 ++ r2 ->
    time (g_irqvector (fst (dispatch_all cfg r1 m)) ndx)
      <= time (g_irqvector (fst r) ndx).
Proof.
  intros Hmon Hwf Hk Hall r. subst r.
  destruct (dispatch_all_time reqs ndx Hmon Hwf Hk Hall m) as [Hlen Ht].
  cbv zeta in Hlen, Ht.
  split; [exact Hlen|]. split; [exact Ht|].
  intros r1 r2 ->. apply Forall_app in Hall. destruct Hall as [_ H2].
  rewrite dispatch_all_app. cbn [fst].
  destruct (dispatch_all_time r2 ndx Hmon Hwf Hk H2
              (fst (dispatch_all cfg r1 m))) as [_ Ht2].
  cbv zeta in Ht2. rewrite Ht2. apply fold_max_ge.
Qed.

(** *** What a dispatch touches *)

(** The selection of lines 178-207 in terms of [reaches] and
    [call_index]. *)
Lemma select_vector_cases irq (m : machine W) :
  select_vector cfg irq m
    = if reaches cfg irq
      then take_slot cfg (call_index cfg irq) irq_unexpected_isr NULL m
      else (irq_unexpected_isr, NULL, call_index cfg irq, m, []).
Proof.
  unfold select_vector, reaches, call_index, in_range, ret.
  destruct ((0 <? NR_IRQS cfg) && (uint32 irq <? uint32 (NR_IRQS cfg)));
    destruct (CONFIG_ARCH_MINIMAL_VECTORTABLE cfg); cbn [andb];
    try reflexivity.
  cbv zeta.
  destruct (uint32 (g_irqmap irq)
            <? uint32 (CONFIG_ARCH_NUSER_INTERRUPTS cfg)); reflexivity.
Qed.

Lemma select_vector_index irq (m : machine W) :
  snd (value (select_vector cfg irq m)) = call_index cfg irq.
Proof.
  rewrite select_vector_cases. destruct (reaches cfg irq); [|reflexivity].
  rewrite take_slot_value.
  destruct (handler (g_irqvector m (call_index cfg irq)) =? NULL);
    reflexivity.
Qed.

(** The effects of [INCR_COUNT]: accesses to the counter words of the
    build's representation, at the index given. *)
Lemma Forall_INCR_COUNT (P : event -> Prop) ndx (m : machine W) :
  (CONFIG_SCHED_IRQMONITOR cfg = true ->
   forall f, is_count_field f = true ->
     (CONFIG_HAVE_LONG_LONG cfg = true <-> f = Fcount) ->
     P (Rd ndx f) /\ forall v, P (Wr ndx f v)) ->
  Forall P (trace (INCR_COUNT cfg ndx m)).
Proof.
  intros H. unfold INCR_COUNT.
  destruct (CONFIG_SCHED_IRQMONITOR cfg); [|apply Forall_nil].
  specialize (H eq_refl).
  destruct (CONFIG_HAVE_LONG_LONG cfg); run.
  - destruct (H Fcount eq_refl) as [Hr Hw]; [tauto|].
    repeat (apply Forall_cons; [auto|]). apply Forall_nil.
  - destruct (H Flscount eq_refl) as [Hr Hw];
      [split; intros; discriminate|].
    destruct (H Fmscount eq_refl) as [Hr' Hw'];
      [split; intros; discriminate|].
    repeat (apply Forall_cons; [auto|]). apply Forall_nil.
  - destruct (H Flscount eq_refl) as [Hr Hw];
      [split; intros; discriminate|].
    repeat (apply Forall_cons; [auto|]). apply Forall_nil.
Qed.

(** The effects of the selection: none unless the dispatch reaches the
    slot; then reads of the handler and of the argument and the effects of
    [INCR_COUNT], all at [call_index]. *)
Lemma Forall_select_vector (P : event -> Prop) irq (m : machine W) :
  (reaches cfg irq = true ->
   P (Rd (call_index cfg irq) Fhandler) /\
   P (Rd (call_index cfg irq) Farg) /\
   Forall P (trace (INCR_COUNT cfg (call_index cfg irq) m))) ->
  Forall P (trace (select_vector cfg irq m)).
Proof.
  intros H. rewrite select_vector_cases.
  destruct (reaches cfg irq); [|apply Forall_nil].
  destruct (H eq_refl) as (Hh & Ha & Hc).
  rewrite take_slot_trace. apply Forall_cons; [exact Hh|].
  apply Forall_app. split; [|exact Hc].
  destruct (handler (g_irqvector m (call_index cfg irq)) =? NULL);
    repeat (apply Forall_cons; [auto|]); apply Forall_nil.
Qed.

(** The effects of the call bracket: the call, and with monitoring the
    clock effects and the access to the time at the index given. *)
Lemma Forall_CALL_VECTOR (P : event -> Prop) ndx v irq context a
    (m : machine W) :
  P (Call v irq context a) ->
  (CONFIG_SCHED_IRQMONITOR cfg = true ->
   (forall e, is_clock e = true -> P e) /\
   P (Rd ndx Ftime) /\ forall d, P (Wr ndx Ftime d)) ->
  Forall P (trace (CALL_VECTOR cfg ndx v irq context a m)).
Proof.
  intros Hcall H. unfold CALL_VECTOR.
  destruct (CONFIG_SCHED_IRQMONITOR cfg).
  - destruct (H eq_refl) as (Hclk & Hr & Hw). run;
      repeat (apply Forall_cons; [solve [auto | apply Hclk; reflexivity]|]);
      apply Forall_nil.
  - run. apply Forall_cons; [exact Hcall | apply Forall_nil].
Qed.

(** A property of all the effects of a dispatch, from the property on the
    effects of its four phases. *)
Lemma Forall_irq_dispatch (P : event -> Prop) irq context (m : machine W) :
  Forall P (trace (select_vector cfg irq m)) ->
  (CONFIG_CRYPTO_RANDOM_POOL_COLLECT_IRQ_RANDOMNESS cfg = true ->
   P (Randomness irq)) ->
  (forall v a m1,
     Forall P (trace (CALL_VECTOR cfg (call_index cfg irq) v irq context
                        a m1))) ->
  (forall c t, P (Running c t)) ->
  Forall P (trace (irq_dispatch cfg irq context m)).
Proof.
  intros Hs Hr Hc Hrun. rewrite irq_dispatch_phases. cbv zeta.
  unfold trace at 1. cbn [snd]. rewrite select_vector_index.
  repeat (apply Forall_app; split); try assumption.
  - rewrite collect_randomness_trace.
    destruct (CONFIG_CRYPTO_RANDOM_POOL_COLLECT_IRQ_RANDOMNESS cfg);
      [apply Forall_cons; [auto | apply Forall_nil] | apply Forall_nil].
  - apply Hc.
  - unfold record_running, trace. cbn [snd].
    apply Forall_cons; [apply Hrun | apply Forall_nil].
Qed.

(** X2: Every access a dispatch makes to the table is at the one index
    [call_index] gives for the IRQ number. *)
Theorem dispatch_accesses_one_index irq context (m : machine W) :
  Forall (fun e => access_index e = None \/
                   access_index e = Some (call_index cfg irq))
         (trace (irq_dispatch cfg irq context m)).
Proof.
  apply Forall_irq_dispatch; cbn [access_index]; auto.
  - apply Forall_select_vector. intros _. cbn [access_index].
    repeat split; auto.
    apply Forall_INCR_COUNT. intros _ f _ _. cbn [access_index]. auto.
  - intros v a m1. apply Forall_CALL_VECTOR; cbn [access_index]; auto.
    intros _. repeat split; auto.
    intros e He. destruct e; try discriminate; cbn [access_index]; auto.
Qed.

(** A dispatch that reaches the slot does so at an index of the table. *)
Lemma reaches_in_table irq :
  0 <= CONFIG_ARCH_NUSER_INTERRUPTS cfg ->
  reaches cfg irq = true ->
  0 <= call_index cfg irq < table_len cfg.
Proof.
  intros Hnu Hr. unfold reaches in Hr. apply andb_prop in Hr.
  destruct Hr as [Hin Hmap]. unfold call_index, table_len. rewrite Hin.
  unfold in_range in Hin. apply andb_prop in Hin. destruct Hin as [H0 H1].
  apply Z.ltb_lt in H0, H1.
  destruct (CONFIG_ARCH_MINIMAL_VECTORTABLE cfg); cbn [andb].
  - apply Z.ltb_lt in Hmap.
    pose proof (uint32_range (g_irqmap irq)).
    assert (uint32 (CONFIG_ARCH_NUSER_INTERRUPTS cfg)
            <= CONFIG_ARCH_NUSER_INTERRUPTS cfg)
      by (unfold uint32; apply Z.mod_le; lia).
    lia.
  - pose proof (uint32_range irq).
    assert (uint32 (NR_IRQS cfg) <= NR_IRQS cfg)
      by (unfold uint32; apply Z.mod_le; lia).
    lia.
Qed.

(** X3: The guards of lines 183 and 187 do their work: every access to a
    handler, an argument or a counter word is at an index of the declared
    table.  Only the time is accessed outside them. *)
Theorem guarded_accesses_within_table irq context (m : machine W) :
  0 <= CONFIG_ARCH_NUSER_INTERRUPTS cfg ->
  Forall (fun e => forall n f,
            access_index e = Some n -> access_field e = Some f ->
            f <> Ftime -> 0 <= n < table_len cfg)
         (trace (irq_dispatch cfg irq context m)).
Proof.
  intros Hnu. apply Forall_irq_dispatch.
  - apply Forall_select_vector. intros Hr.
    pose proof (reaches_in_table irq Hnu Hr) as Hin.
    split; [|split].
    + cbn [access_index access_field]. intros n f [= <-] _ _. exact Hin.
    + cbn [access_index access_field]. intros n f [= <-] _ _. exact Hin.
    + apply Forall_INCR_COUNT. intros _ f _ _.
      split; [|intros v]; cbn [access_index access_field];
        intros n f' [= <-] _ _; exact Hin.
  - intros _ n f [=].
  - intros v a m1. apply Forall_CALL_VECTOR.
    + intros n f [=].
    + intros _. split; [|split].
      * intros e He n f Hn. destruct e; discriminate.
      * cbn [access_index access_field]. intros n f _ [= <-] Hf.
        congruence.
      * cbn [access_index access_field]. intros d n f _ [= <-] Hf.
        congruence.
  - intros c t n f [=].
Qed.

(** X4: The counter words a dispatch accesses are those of the build's
    representation, and none without monitoring: [count] alone in the
    wide build, [lscount] and [mscount] alone in the two-word build. *)
Theorem dispatch_uses_one_representation irq context (m : machine W) :
  Forall (fun e => forall f,
            access_field e = Some f -> is_count_field f = true ->
            CONFIG_SCHED_IRQMONITOR cfg = true /\
            (CONFIG_HAVE_LONG_LONG cfg = true <-> f = Fcount))
         (trace (irq_dispatch cfg irq context m)).
Proof.
  apply Forall_irq_dispatch.
  - apply Forall_select_vector. intros _. split; [|split].
    + cbn [access_field]. intros f [= <-]. discriminate.
    + cbn [access_field]. intros f [= <-]. discriminate.
    + apply Forall_INCR_COUNT. intros Hmon f Hf Hrep.
      split; [|intros v]; cbn [access_field]; intros f' [= <-] _;
        split; assumption.
  - intros _ f [=].
  - intros v a m1. apply Forall_CALL_VECTOR.
    + intros f [=].
    + intros _. split; [|split].
      * intros e He f Hf. destruct e; discriminate.
      * cbn [access_field]. intros f [= <-]. discriminate.
      * cbn [access_field]. intros d f [= <-]. discriminate.
  - intros c t f [=].
Qed.

(** X5: With monitoring disabled a dispatch reads no clock and writes no field
    of any slot; the only fields it reads are a handler and its
    argument. *)
Theorem unmonitored_dispatch_is_bare irq context (m : machine W) :
  CONFIG_SCHED_IRQMONITOR cfg = false ->
  Forall (fun e => is_clock e = false /\
                   (forall n f v, e <> Wr n f v) /\
                   (forall n f, e = Rd n f -> f = Fhandler \/ f = Farg))
         (trace (irq_dispatch cfg irq context m)).
Proof.
  intros Hmon.
  assert (Hother : forall e, is_slot_access e = false -> is_clock e = false ->
            is_clock e = false /\
            (forall n f v, e <> Wr n f v) /\
            (forall n f, e = Rd n f -> f = Fhandler \/ f = Farg)).
  { intros e Hs Hc. split; [exact Hc|]. split.
    - intros n f v ->. discriminate.
    - intros n f ->. discriminate. }
  apply Forall_irq_dispatch.
  - apply Forall_select_vector. intros _. split; [|split].
    + split; [reflexivity|]. split; [discriminate|].
      intros n f [= _ <-]. auto.
    + split; [reflexivity|]. split; [discriminate|].
      intros n f [= _ <-]. auto.
    + apply Forall_INCR_COUNT. rewrite Hmon. discriminate.
  - intros _. apply Hother; reflexivity.
  - intros v a m1. apply Forall_CALL_VECTOR.
    + apply Hother; reflexivity.
    + rewrite Hmon. discriminate.
  - intros c t. apply Hother; reflexivity.
Qed.

(** *** What a dispatch leaves alone *)

Lemma set_count_field_keeps f v s :
  is_count_field f = true ->
  handler (set_field f v s) = handler s /\
  arg (set_field f v s) = arg s /\
  time (set_field f v s) = time s.
Proof. destruct f; try discriminate; intros _; repeat split. Qed.

Lemma INCR_COUNT_frame n (m : machine W) :
  let m' := final (INCR_COUNT cfg n m) in
  g_running_tasks m' = g_running_tasks m /\
  world m' = world m /\
  forall j,
    handler (g_irqvector m' j) = handler (g_irqvector m j) /\
    arg (g_irqvector m' j) = arg (g_irqvector m j) /\
    time (g_irqvector m' j) = time (g_irqvector m j) /\
    (j <> n -> g_irqvector m' j = g_irqvector m j).
Proof.
  unfold INCR_COUNT. run; cbn [g_irqvector g_running_tasks world];
    (split; [reflexivity|]); (split; [reflexivity|]); intros j;
    unfold update;
    destruct (Z.eqb_spec j n) as [-> | Hne];
    rewrite ?Z.eqb_refl; cbn [set_field handler arg time];
    repeat split; try reflexivity; intros; congruence.
Qed.

Lemma select_vector_frame irq (m : machine W) :
  let m' := final (select_vector cfg irq m) in
  g_running_tasks m' = g_running_tasks m /\
  world m' = world m /\
  forall j,
    handler (g_irqvector m' j) = handler (g_irqvector m j) /\
    arg (g_irqvector m' j) = arg (g_irqvector m j) /\
    time (g_irqvector m' j) = time (g_irqvector m j) /\
    (j <> call_index cfg irq -> g_irqvector m' j = g_irqvector m j).
Proof.
  cbv zeta. rewrite select_vector_cases. destruct (reaches cfg irq).
  - rewrite take_slot_final. apply INCR_COUNT_frame.
  - unfold final. cbn [fst snd]. repeat split.
Qed.

Lemma collect_randomness_running irq (m : machine W) :
  g_running_tasks (final (collect_randomness cfg irq m)) = g_running_tasks m.
Proof.
  unfold collect_randomness. run; reflexivity.
Qed.

(** The call bracket writes nothing but the time at its index: what the
    service routine leaves in a slot's registration, or in the
    running-task array, is what the bracket leaves. *)
Lemma CALL_VECTOR_frame n v irq context a (m : machine W) :
  let m' := final (CALL_VECTOR cfg n v irq context a m) in
  exists m0,
    g_irqvector m0 = g_irqvector m /\
    g_running_tasks m0 = g_running_tasks m /\
    g_running_tasks m' = g_running_tasks (isr v irq context a m0) /\
    forall j,
      handler (g_irqvector m' j)
        = handler (g_irqvector (isr v irq context a m0) j) /\
      arg (g_irqvector m' j)
        = arg (g_irqvector (isr v irq context a m0) j).
Proof.
  unfold CALL_VECTOR. run; cbn [g_irqvector g_running_tasks];
    match goal with
    | |- context [isr v irq context a ?m0] => exists m0
    end;
    cbn [g_irqvector g_running_tasks];
    (split; [reflexivity|]); (split; [reflexivity|]);
    (split; [reflexivity|]); intros j; unfold update;
    try destruct (Z.eqb_spec j n) as [-> | Hne];
    cbn [set_field handler arg]; split; reflexivity.
Qed.

(** X6: A dispatch never writes the registration of a slot: no effect of it
    is a write to a handler or to an argument, and the handler and the
    argument of every slot the service routines leave alone are after the
    dispatch what they were before. *)
Theorem dispatch_keeps_registration irq context j (m : machine W) :
  isr_keeps_registration j ->
  let r := irq_dispatch cfg irq context m in
  forallb (fun e => negb (is_registration_write e)) (trace r) = true /\
  handler (g_irqvector (final r) j) = handler (g_irqvector m j) /\
  arg (g_irqvector (final r) j) = arg (g_irqvector m j).
Proof.
  intros Hk r. subst r. split.
  - apply forallb_forall. apply Forall_forall.
    apply Forall_irq_dispatch; try reflexivity.
    + apply Forall_select_vector. intros _. split; [|split]; try reflexivity.
      apply Forall_INCR_COUNT. intros _ f Hf _.
      split; [reflexivity|intros v]. destruct f; try discriminate;
        reflexivity.
    + intros v a m1. apply Forall_CALL_VECTOR; [reflexivity|].
      intros _. split; [|split]; try reflexivity.
      intros e He. destruct e; try discriminate; reflexivity.
  - pose proof (irq_dispatch_final irq context m) as Hfin.
    cbv zeta in Hfin. rewrite Hfin. clear Hfin.
    match goal with
    | |- context [CALL_VECTOR cfg ?n ?v irq context ?a ?m1] =>
        destruct (CALL_VECTOR_frame n v irq context a m1)
          as (m0 & Hg & _ & _ & Hreg);
        destruct (Hreg j) as [Hh Ha];
        destruct (Hk v irq context a m0) as [Hh' Ha']
    end.
    rewrite Hh, Ha, Hh', Ha', Hg, collect_randomness_table.
    destruct (select_vector_frame irq m) as (_ & _ & Hsel).
    destruct (Hsel j) as (Hsh & Hsa & _). split; assumption.
Qed.

Lemma irq_dispatch_running irq context (m : machine W) :
  let s := select_vector cfg irq m in
  let e := collect_randomness cfg irq (final s) in
  let c := CALL_VECTOR cfg (snd (value s)) (fst (fst (value s))) irq
             context (snd (fst (value s))) (final e) in
  world (final (irq_dispatch cfg irq context m)) = world (final c) /\
  g_running_tasks (final (irq_dispatch cfg irq context m))
    = update (g_running_tasks (final c)) (this_cpu (world (final c)))
             (this_task (world (final c))).
Proof.
  cbv zeta. rewrite irq_dispatch_phases. split; reflexivity.
Qed.

(** X7: A dispatch writes one entry of the running-task array, that of the
    CPU it ends on: the entries of the other CPUs are what they were, as
    far as the service routine left them alone. *)
Theorem dispatch_writes_one_running_slot irq context c (m : machine W) :
  isr_keeps_running ->
  let r := irq_dispatch cfg irq context m in
  c <> this_cpu (world (final r)) ->
  g_running_tasks (final r) c = g_running_tasks m c /\
  filter is_running (trace r)
    = [Running (this_cpu (world (final r))) (this_task (world (final r)))].
Proof.
  intros Hk r Hc. subst r. split.
  - destruct (irq_dispatch_running irq context m) as [Hw Hrt].
    cbv zeta in Hw, Hrt. rewrite Hw in Hc. rewrite Hrt. unfold update.
    replace (c =? _) with false by (symmetry; apply Z.eqb_neq; exact Hc).
    match goal with
    | |- context [CALL_VECTOR cfg ?n ?v irq context ?a ?m1] =>
        destruct (CALL_VECTOR_frame n v irq context a m1)
          as (m0 & _ & Hrun0 & Hrun & _)
    end.
    cbv zeta in Hrun.
    rewrite Hrun, Hk, Hrun0, collect_randomness_running.
    destruct (select_vector_frame irq m) as (Hsel & _). rewrite Hsel.
    reflexivity.
  - assert (Hno : forall l,
              Forall (fun e => is_running e = false) l ->
              filter is_running l = []).
    { intros l Hl. apply filter_none. apply forallb_forall.
      rewrite Forall_forall in Hl. intros e He. rewrite (Hl e He).
      reflexivity. }
    destruct (irq_dispatch_running irq context m) as [Hw _].
    cbv zeta in Hw. rewrite Hw. clear Hw.
    rewrite irq_dispatch_phases. cbv zeta.
    unfold trace at 1. cbn [snd].
    rewrite !filter_app.
    rewrite (Hno (trace (select_vector cfg irq m))).
    2:{ apply Forall_select_vector. intros _. split; [|split];
          try reflexivity.
        apply Forall_INCR_COUNT. intros _ f _ _. split; reflexivity. }
    rewrite collect_randomness_trace.
    rewrite (Hno (trace (CALL_VECTOR _ _ _ _ _ _ _))).
    2:{ apply Forall_CALL_VECTOR; [reflexivity|]. intros _.
        split; [|split]; try reflexivity.
        intros e He. destruct e; try discriminate; reflexivity. }
    destruct (CONFIG_CRYPTO_RANDOM_POOL_COLLECT_IRQ_RANDOMNESS cfg);
      reflexivity.
Qed.

(** *** The timing probe *)

Lemma trace_bind {A B} (c : Disp A) (k : A -> Disp B) (m : machine W) :
  trace (bind c k m) = trace (c m) ++ trace (k (value (c m)) (final (c m))).
Proof. reflexivity. Qed.

Lemma keep_worst_trace ndx delta (m : machine W) :
  trace (keep_worst ndx delta m)
    = Rd ndx Ftime
      :: (if tv_nsec delta >? time (g_irqvector m ndx)
          then [Wr ndx Ftime (tv_nsec delta)] else []).
Proof.
  unfold keep_worst, bind, load, store, ret, value, final, trace.
  cbn [fst snd get_field].
  destruct (tv_nsec delta >? time (g_irqvector m ndx)); reflexivity.
Qed.

Lemma CALL_VECTOR_bracket ndx v irq context a (m : machine W) :
  CONFIG_SCHED_IRQMONITOR cfg = true ->
  exists bracket d m0,
    g_irqvector m0 = g_irqvector m /\
    trace (CALL_VECTOR cfg ndx v irq context a m)
      = bracket
        ++ Rd ndx Ftime
        :: (if d >? time (g_irqvector (isr v irq context a m0) ndx)
            then [Wr ndx Ftime d] else []) /\
    ((HAVE_PLATFORM_GETTIME cfg = true /\
      exists s e,
        bracket = [Gettime s; Call v irq context a; Gettime e;
                   Convert (uint32 (e - s))
                           (up_critmon_convert (uint32 (e - s)))] /\
        d = tv_nsec (up_critmon_convert (uint32 (e - s)))) \/
     (HAVE_PLATFORM_GETTIME cfg = false /\
      exists s e,
        bracket = [Systimespec s; Call v irq context a; Systimespec e;
                   Subtract e s (clock_timespec_subtract e s)] /\
        d = tv_nsec (clock_timespec_subtract e s))).
Proof.
  intros Hmon. unfold CALL_VECTOR. rewrite Hmon.
  destruct (HAVE_PLATFORM_GETTIME cfg);
    rewrite !trace_bind, keep_worst_trace;
    unfold bind, on_world, invoke, emit, ret, value, final, trace;
    cbn [fst snd g_irqvector g_running_tasks world app].
  - eexists [Gettime _; Call v irq context a; Gettime _; Convert _ _], _,
      (mk_machine _ _ _).
    split; [reflexivity|]. split; [reflexivity|].
    left. split; [reflexivity|]. eexists _, _. split; reflexivity.
  - eexists [Systimespec _; Call v irq context a; Systimespec _;
             Subtract _ _ _], _, (mk_machine _ _ _).
    split; [reflexivity|]. split; [reflexivity|].
    right. split; [reflexivity|]. eexists _, _. split; reflexivity.
Qed.

(** X8: With monitoring enabled the clock of the build is read immediately
    before and immediately after the call and nowhere else, and the delta
    is taken between these two readings: with the platform tick clock it
    is the conversion of their difference as a 32-bit unsigned value,
    which is the number of ticks elapsed even when the counter wrapped in
    between. *)
Theorem clock_brackets_the_call irq context (m : machine W) :
  CONFIG_SCHED_IRQMONITOR cfg = true ->
  exists before bracket after v a,
    trace (irq_dispatch cfg irq context m) = before ++ bracket ++ after /\
    Forall (fun e => is_clock e = false) (before ++ after) /\
    ((HAVE_PLATFORM_GETTIME cfg = true /\
      exists s e,
        bracket = [Gettime s; Call v irq context a; Gettime e;
                   Convert (uint32 (e - s))
                           (up_critmon_convert (uint32 (e - s)))] /\
        forall k, 0 <= k < 2 ^ 32 -> e = uint32 (s + k) ->
                  uint32 (e - s) = k) \/
     (HAVE_PLATFORM_GETTIME cfg = false /\
      exists s e,
        bracket = [Systimespec s; Call v irq context a; Systimespec e;
                   Subtract e s (clock_timespec_subtract e s)])).
Proof.
  intros Hmon. rewrite irq_dispatch_phases. cbv zeta.
  unfold trace at 1. cbn [snd].
  match goal with
  | |- context [CALL_VECTOR cfg ?n ?v irq context ?a ?m1] =>
      destruct (CALL_VECTOR_bracket n v irq context a m1 Hmon)
        as (bracket & d & m0 & _ & -> & Hb);
      exists (trace (select_vector cfg irq m)
              ++ trace (collect_randomness cfg irq
                          (final (select_vector cfg irq m)))),
        bracket;
      eexists; exists v, a
  end.
  split; [rewrite <- !app_assoc; reflexivity|]. split.
  - repeat (apply Forall_app; split).
    + apply Forall_select_vector. intros _. split; [|split];
        try reflexivity.
      apply Forall_INCR_COUNT. intros _ f _ _. split; reflexivity.
    + rewrite collect_randomness_trace.
      destruct (CONFIG_CRYPTO_RANDOM_POOL_COLLECT_IRQ_RANDOMNESS cfg);
        repeat constructor.
    + apply Forall_cons; [reflexivity|].
      match goal with
      | |- context [if ?b then _ else _] => destruct b
      end; repeat constructor.
    + unfold record_running, trace. cbn [snd]. repeat constructor.
  - destruct Hb as [(Hg & s & e & Hbr & _) | (Hg & s & e & Hbr & _)].
    + left. split; [exact Hg|]. exists s, e. split; [exact Hbr|].
      intros k Hk ->. unfold uint32.
      rewrite Zminus_mod_idemp_l.
      replace (s + k - s) with k by lia. apply Z.mod_small. exact Hk.
    + right. split; [exact Hg|]. exists s, e. exact Hbr.
Qed.

Lemma irq_dispatch_trace irq context (m : machine W) :
  let s := select_vector cfg irq m in
  let e := collect_randomness cfg irq (final s) in
  let c := CALL_VECTOR cfg (call_index cfg irq) (fst (fst (value s))) irq
             context (snd (fst (value s))) (final e) in
  trace (irq_dispatch cfg irq context m)
    = trace s ++ trace e ++ trace c
      ++ [Running (this_cpu (world (final c))) (this_task (world (final c)))].
Proof.
  cbv zeta. rewrite irq_dispatch_phases. cbv zeta.
  rewrite select_vector_index. reflexivity.
Qed.

(** X9: With monitoring enabled every dispatch, whether or not it reached a
    slot, measures one delta and compares its [tv_nsec] with the time at
    the index it calls with: the time is written only when the delta is
    strictly larger, and is the larger of the two afterwards. *)
Theorem time_written_only_when_exceeded irq context (m : machine W) :
  CONFIG_SCHED_IRQMONITOR cfg = true ->
  isr_keeps_time (call_index cfg irq) ->
  let r := irq_dispatch cfg irq context m in
  let i := call_index cfg irq in
  exists d,
    deltas (trace r) = [d] /\
    filter is_time_write (trace r)
      = (if d >? time (g_irqvector m i) then [Wr i Ftime d] else []) /\
    time (g_irqvector (final r) i) = Z.max (time (g_irqvector m i)) d.
Proof.
  intros Hmon Hk r i. subst r i.
  pose proof (irq_dispatch_final irq context m) as Hfin.
  cbv zeta in Hfin. rewrite Hfin. clear Hfin.
  rewrite select_vector_index, irq_dispatch_trace. cbv zeta.
  match goal with
  | |- context [CALL_VECTOR cfg _ ?v irq context ?a ?m1] =>
      destruct (CALL_VECTOR_time (call_index cfg irq) v irq context a m1
                  Hmon Hk) as (d & Hd & Ht);
      destruct (CALL_VECTOR_bracket (call_index cfg irq) v irq context a m1
                  Hmon) as (bracket & d' & m0 & Hm0 & Hbr & Hb)
  end.
  cbv zeta in Hd, Ht. exists d.
  rewrite !deltas_app, !filter_app, select_vector_deltas,
    collect_randomness_trace, Hd, Ht.
  assert (Hsel : filter is_time_write (trace (select_vector cfg irq m)) = []).
  { apply filter_none. apply forallb_forall. apply Forall_forall.
    apply Forall_select_vector. intros _. split; [|split]; try reflexivity.
    apply Forall_INCR_COUNT. intros _ f Hf _.
    split; [reflexivity|intros v]. destruct f; try discriminate;
      reflexivity. }
  rewrite Hsel, collect_randomness_table.
  destruct (select_vector_frame irq m) as (_ & _ & Hfr).
  destruct (Hfr (call_index cfg irq)) as (_ & _ & Htime & _).
  rewrite Htime. clear Hfr.
  assert (Hdd : d' = d /\ filter is_time_write bracket = []).
  { rewrite Hbr in Hd. rewrite deltas_app in Hd.
    destruct Hb as [(_ & s & e & -> & ->) | (_ & s & e & -> & ->)];
      cbn [deltas app] in Hd;
      (split; [|reflexivity]);
      match type of Hd with
      | context [if ?b then _ else _] => destruct b
      end; cbn [deltas] in Hd; congruence. }
  destruct Hdd as [-> Hbk].
  rewrite Hbr, filter_app, Hbk. cbn [filter is_time_write app].
  match goal with
  | |- context [isr ?v irq context ?a m0] =>
      pose proof (Hk v irq context a m0) as Hisr
  end.
  rewrite Hm0, collect_randomness_table in Hisr.
  rewrite Hisr, Htime.
  split; [|split]; try reflexivity.
  - destruct (CONFIG_CRYPTO_RANDOM_POOL_COLLECT_IRQ_RANDOMNESS cfg);
      reflexivity.
  - destruct (CONFIG_CRYPTO_RANDOM_POOL_COLLECT_IRQ_RANDOMNESS cfg);
      destruct (d >? time (g_irqvector m (call_index cfg irq)));
      reflexivity.
Qed.

(** *** Sequences of dispatches *)

Lemma irq_dispatch_randomness irq context (m : machine W) :
  filter is_randomness (trace (irq_dispatch cfg irq context m))
    = if CONFIG_CRYPTO_RANDOM_POOL_COLLECT_IRQ_RANDOMNESS cfg
      then [Randomness irq] else [].
Proof.
  destruct (irq_dispatch_split irq context m)
    as (pre & post & v & a & Htr & Hq).
  cbv zeta in Htr. rewrite Htr. clear Htr.
  rewrite forallb_app in Hq. apply andb_prop in Hq. destruct Hq as [Hp Hq].
  assert (Hw : forall l,
            forallb (fun e => negb (is_call e) && negb (is_randomness e)
                              && negb (is_count_write e)) l = true ->
            filter is_randomness l = []).
  { intros l Hl. apply filter_none. eapply forallb_weaken; [|exact Hl].
    intros e He. apply andb_prop in He. destruct He as [He _].
    apply andb_prop in He. tauto. }
  rewrite !filter_app. cbn [filter is_randomness]. rewrite !filter_app.
  rewrite (Hw pre Hp), (Hw post Hq).
  rewrite (filter_none is_randomness (trace (select_vector cfg irq m))).
  2:{ eapply forallb_weaken; [|apply select_vector_quiet].
      intros e He. apply andb_prop in He. tauto. }
  destruct (CONFIG_CRYPTO_RANDOM_POOL_COLLECT_IRQ_RANDOMNESS cfg);
    reflexivity.
Qed.

(** *** Stray and negative IRQ numbers *)

(** X12: A negative IRQ number never reaches a slot: as an unsigned value it is
    at least 2^31, above any [NR_IRQS].  The sentinel is called with the
    number as it came and a null argument, and the index the call bracket
    is expanded with is the number plus 2^32. *)
Theorem negative_irq_is_stray irq context (m : machine W) :
  - 2 ^ 31 <= irq < 0 ->
  NR_IRQS cfg < 2 ^ 31 ->
  reaches cfg irq = false /\
  call_index cfg irq = irq + 2 ^ 32 /\
  filter is_call (trace (irq_dispatch cfg irq context m))
    = [Call irq_unexpected_isr irq context NULL].
Proof.
  intros Hirq Hnr.
  assert (Hu : uint32 irq = irq + 2 ^ 32).
  { unfold uint32. symmetry. apply Z.mod_unique_pos with (q := -1); lia. }
  assert (Hin : in_range cfg irq = false).
  { unfold in_range. destruct (0 <? NR_IRQS cfg) eqn:H0; [|reflexivity].
    apply Z.ltb_lt in H0. cbn [andb]. apply Z.ltb_ge.
    rewrite Hu, uint32_small; lia. }
  assert (Hr : reaches cfg irq = false)
    by (unfold reaches; rewrite Hin; reflexivity).
  split; [exact Hr|]. split.
  - unfold call_index. rewrite Hin. exact Hu.
  - rewrite irq_dispatch_calls. cbv zeta.
    rewrite select_vector_cases, Hr. reflexivity.
Qed.

(** *** Counting over arbitrary sequences *)

(** The counter words of slot [ndx] after any dispatch: those
    [INCR_COUNT] leaves when the dispatch reaches that slot, the former
    ones otherwise. *)
Lemma irq_dispatch_counts_any irq context ndx (m : machine W) :
  isr_keeps_counts ndx ->
  same_counts
    (g_irqvector (final (irq_dispatch cfg irq context m)) ndx)
    (g_irqvector (if counts_on cfg ndx (irq, context)
                  then final (INCR_COUNT cfg ndx m) else m) ndx).
Proof.
  intros Hk.
  pose proof (irq_dispatch_final irq context m) as Hfin.
  cbv zeta in Hfin. rewrite Hfin. clear Hfin.
  match goal with
  | |- context [CALL_VECTOR cfg ?n ?v irq context ?a ?m1] =>
      pose proof (CALL_VECTOR_counts n v irq context a ndx m1 Hk) as Hsame
  end.
  rewrite collect_randomness_table in Hsame.
  destruct Hsame as (Hc & Hm & Hl). unfold same_counts.
  rewrite Hc, Hm, Hl. clear Hc Hm Hl.
  unfold counts_on. cbn [fst]. rewrite select_vector_cases.
  destruct (reaches cfg irq); cbn [andb].
  - rewrite take_slot_final.
    destruct (Z.eqb_spec (call_index cfg irq) ndx) as [-> | Hne].
    + repeat split.
    + destruct (INCR_COUNT_frame (call_index cfg irq) m) as (_ & _ & Hfr).
      destruct (Hfr ndx) as (_ & _ & _ & Heq).
      rewrite Heq by congruence. repeat split.
  - repeat split.
Qed.

(** X13: Over any sequence of dispatches (IRQs of this slot, of other slots,
    stray ones, in any order) with monitoring enabled, the logical count
    of a slot grows by the number of dispatches that reached that slot,
    modulo 2^64, and its counter words stay within their types. *)
Theorem count_over_mixed_sequence reqs ndx (m : machine W) :
  CONFIG_SCHED_IRQMONITOR cfg = true ->
  isr_keeps_counts ndx ->
  wf_slot (g_irqvector m ndx) ->
  let s' := g_irqvector (fst (dispatch_all cfg reqs m)) ndx in
  logical_count cfg s'
    = uint64 (logical_count cfg (g_irqvector m ndx)
              + Z.of_nat (length (filter (counts_on cfg ndx) reqs))) /\
  wf_slot s'.
Proof.
  intros Hmon Hk. revert m.
  induction reqs as [|[irq context] rest IH]; intros m Hslot.
  - cbn [dispatch_all fst filter length Z.of_nat]. rewrite Z.add_0_r.
    split; [|exact Hslot]. unfold uint64. symmetry. apply Z.mod_small.
    apply logical_count_range. exact Hslot.
  - cbn [dispatch_all filter].
    pose proof (irq_dispatch_counts_any irq context ndx m Hk) as Hsame.
    assert (Hstep :
      logical_count cfg
        (g_irqvector (final (irq_dispatch cfg irq context m)) ndx)
      = uint64 (logical_count cfg (g_irqvector m ndx)
                + (if counts_on cfg ndx (irq, context) then 1 else 0)) /\
      wf_slot (g_irqvector (final (irq_dispatch cfg irq context m)) ndx)).
    { destruct (counts_on cfg ndx (irq, context)).
      - destruct (INCR_COUNT_logical ndx m Hmon Hslot) as [Hl Hw].
        cbv zeta in Hl, Hw. split.
        + rewrite (same_counts_logical _ _ Hsame). exact Hl.
        + exact (same_counts_wf _ _ Hsame Hw).
      - split.
        + rewrite (same_counts_logical _ _ Hsame), Z.add_0_r.
          unfold uint64. symmetry. apply Z.mod_small.
          apply logical_count_range. exact Hslot.
        + exact (same_counts_wf _ _ Hsame Hslot). }
    destruct Hstep as [Hone Hslot'].
    specialize (IH (final (irq_dispatch cfg irq context m)) Hslot').
    cbv zeta in IH.
    destruct (dispatch_all cfg rest (final (irq_dispatch cfg irq context m)))
      as [m' l].
    cbn [fst] in IH |- *. destruct IH as [IHl IHw].
    split; [|exact IHw]. rewrite IHl, Hone.
    unfold uint64. rewrite Z.add_mod_idemp_l by lia. f_equal.
    destruct (counts_on cfg ndx (irq, context)); cbn [length]; lia.
Qed.

Lemma INCR_COUNT_trace_no_carry n (m : machine W) :
  CONFIG_SCHED_IRQMONITOR cfg = true ->
  CONFIG_HAVE_LONG_LONG cfg = false ->
  uint32 (lscount (g_irqvector m n) + 1) <> 0 ->
  trace (INCR_COUNT cfg n m)
    = [Rd n Flscount; Wr n Flscount (uint32 (lscount (g_irqvector m n) + 1))].
Proof.
  intros Hmon Hll Hnz. unfold INCR_COUNT. rewrite Hmon, Hll.
  cbv beta zeta iota delta [bind ret load store value final trace fst snd].
  cbn [get_field].
  destruct (uint32 (lscount (g_irqvector m n) + 1) =? 0) eqn:Hz.
  - apply Z.eqb_eq in Hz. contradiction.
  - reflexivity.
Qed.

(** X14: In the two-word build a dispatch that reaches a slot whose low word
    is not all ones adds one to the low word and neither reads nor writes
    the high word. *)
Theorem no_carry_leaves_high_word irq context (m : machine W) :
  CONFIG_SCHED_IRQMONITOR cfg = true ->
  CONFIG_HAVE_LONG_LONG cfg = false ->
  reaches cfg irq = true ->
  isr_keeps_counts (call_index cfg irq) ->
  0 <= lscount (g_irqvector m (call_index cfg irq)) < 2 ^ 32 - 1 ->
  let r := irq_dispatch cfg irq context m in
  let i := call_index cfg irq in
  lscount (g_irqvector (final r) i) = lscount (g_irqvector m i) + 1 /\
  mscount (g_irqvector (final r) i) = mscount (g_irqvector m i) /\
  Forall (fun e => access_field e <> Some Fmscount) (trace r).
Proof.
  intros Hmon Hll Hr Hk Hls r i. subst r i.
  assert (Hw : uint32 (lscount (g_irqvector m (call_index cfg irq)) + 1)
               = lscount (g_irqvector m (call_index cfg irq)) + 1)
    by (apply uint32_small; lia).
  pose proof (irq_dispatch_counts_any irq context (call_index cfg irq) m Hk)
    as (_ & Hm & Hl).
  unfold counts_on in Hm, Hl. cbn [fst] in Hm, Hl.
  rewrite Hr, Z.eqb_refl in Hm, Hl. cbn [andb] in Hm, Hl.
  destruct (INCR_COUNT_words (call_index cfg irq) m Hmon Hll) as [Hl' Hm'].
  cbv zeta in Hl', Hm'. rewrite Hw in Hl', Hm'.
  replace (lscount (g_irqvector m (call_index cfg irq)) + 1 =? 0)
    with false in Hm' by (symmetry; apply Z.eqb_neq; lia).
  split; [congruence|]. split; [congruence|].
  assert (Hok : forall e,
            match e with
            | Rd _ Fmscount | Wr _ Fmscount _ => False
            | _ => True
            end -> access_field e <> Some Fmscount).
  { intros e He. destruct e as [n f | n f v | | | | | | |];
      cbn [access_field]; try discriminate;
      destruct f; try discriminate; contradiction. }
  apply Forall_irq_dispatch.
  - rewrite select_vector_cases, Hr, take_slot_trace.
    apply Forall_cons; [apply Hok; exact I|]. apply Forall_app. split.
    + destruct (handler (g_irqvector m (call_index cfg irq)) =? NULL);
        repeat (apply Forall_cons; [apply Hok; exact I|]); apply Forall_nil.
    + rewrite (INCR_COUNT_trace_no_carry _ m Hmon Hll) by (rewrite Hw; lia).
      repeat (apply Forall_cons; [apply Hok; exact I|]). apply Forall_nil.
  - intros _. apply Hok. exact I.
  - intros v a m1. apply Forall_CALL_VECTOR; [apply Hok; exact I|].
    intros _. split; [|split].
    + intros e He. destruct e; try discriminate; apply Hok; exact I.
    + apply Hok. exact I.
    + intros d. apply Hok. exact I.
  - intros c t. apply Hok. exact I.
Qed.

(** X1: The vector a dispatch calls, in every case: the handler of the slot
    at [call_index] with the argument stored next to it when the dispatch
    reaches the slot and the slot holds a handler, the unexpected-ISR
    sentinel with a null argument otherwise. *)
Theorem dispatch_call_characterised irq context (m : machine W) :
  let s := g_irqvector m (call_index cfg irq) in
  filter is_call (trace (irq_dispatch cfg irq context m))
    = [if reaches cfg irq && negb (handler s =? NULL)
       then Call (handler s) irq context (arg s)
       else Call irq_unexpected_isr irq context NULL].
Proof.
  cbv zeta. rewrite irq_dispatch_calls. cbv zeta.
  rewrite select_vector_cases. destruct (reaches cfg irq); cbn [andb].
  - rewrite take_slot_value.
    destruct (handler (g_irqvector m (call_index cfg irq)) =? NULL);
      reflexivity.
  - reflexivity.
Qed.

(** *** The machine the vector runs on and the machine it leaves *)

Lemma set_own_time s : set_field Ftime (time s) s = s.
Proof. destruct s. reflexivity. Qed.

Lemma collect_randomness_world irq (m : machine W) :
  world (final (collect_randomness cfg irq m)) = offered cfg irq (world m).
Proof.
  unfold collect_randomness, offered.
  destruct (CONFIG_CRYPTO_RANDOM_POOL_COLLECT_IRQ_RANDOMNESS cfg);
    reflexivity.
Qed.

(** The call bracket runs the vector once, on the machine as it is after
    the first reading of the clock, and leaves what the vector returned
    but for the second reading of the clock and the time at its index. *)
Lemma CALL_VECTOR_machine n v irq context a (m : machine W) :
  let ret := isr v irq context a
               (mk_machine (g_irqvector m) (g_running_tasks m)
                           (clock_read cfg (world m))) in
  let c := final (CALL_VECTOR cfg n v irq context a m) in
  world c = clock_read cfg (world ret) /\
  g_running_tasks c = g_running_tasks ret /\
  forall j,
    g_irqvector c j = set_field Ftime (time (g_irqvector c j))
                                (g_irqvector ret j) /\
    (j <> n \/ CONFIG_SCHED_IRQMONITOR cfg = false ->
     g_irqvector c j = g_irqvector ret j).
Proof.
  destruct m as [g rt w]. unfold CALL_VECTOR, clock_read.
  destruct (CONFIG_SCHED_IRQMONITOR cfg).
  - destruct (HAVE_PLATFORM_GETTIME cfg);
      unfold keep_worst, bind, on_world, invoke, emit, load, store, ret,
        value, final, trace;
      cbn [fst snd g_irqvector g_running_tasks world get_field];
      match goal with
      | |- context [if ?b then _ else _] => destruct b
      end;
      cbn [fst snd g_irqvector g_running_tasks world];
      (split; [reflexivity|]); (split; [reflexivity|]); intros j;
      unfold update;
      try (destruct (Z.eqb_spec j n) as [-> | Hne]);
      rewrite ?set_own_time;
      cbn [set_field time handler arg count mscount lscount];
      (split; [reflexivity|]); intros [H | H];
      solve [reflexivity | congruence | discriminate].
  - unfold invoke, final. cbn [fst snd g_irqvector g_running_tasks world].
    split; [reflexivity|]. split; [reflexivity|]. intros j.
    rewrite set_own_time. split; reflexivity.
Qed.

(** A dispatch runs the selected vector once, on [entry_machine], and
    the machine it returns is the one the vector returned, but for the
    second reading of the clock, the time at the dispatch index and the
    running-task entry of the CPU. *)
Lemma irq_dispatch_machine irq context (m : machine W) :
  let s := select_vector cfg irq m in
  let ret := isr (fst (fst (@value (machine W) (xcpt_t * Z * Z) s))) irq
               context (snd (fst (@value (machine W) (xcpt_t * Z * Z) s)))
               (entry_machine cfg irq m) in
  let r := irq_dispatch cfg irq context m in
  world (final r) = clock_read cfg (world ret) /\
  g_running_tasks (final r)
    = update (g_running_tasks ret) (this_cpu (world (final r)))
             (this_task (world (final r))) /\
  forall j,
    g_irqvector (final r) j
      = set_field Ftime (time (g_irqvector (final r) j))
                  (g_irqvector ret j) /\
    (j <> call_index cfg irq \/ CONFIG_SCHED_IRQMONITOR cfg = false ->
     g_irqvector (final r) j = g_irqvector ret j).
Proof.
  cbv zeta.
  destruct (irq_dispatch_running irq context m) as [Hw Hrt].
  cbv zeta in Hw, Hrt.
  pose proof (irq_dispatch_final irq context m) as Hg. cbv zeta in Hg.
  rewrite Hrt, Hg, Hw. clear Hrt Hg Hw.
  rewrite select_vector_index.
  match goal with
  | |- context [CALL_VECTOR cfg ?n ?v irq context ?a ?m1] =>
      destruct (CALL_VECTOR_machine n v irq context a m1) as (Hcw & Hcr & Hcg)
  end.
  cbv zeta in Hcw, Hcr, Hcg.
  rewrite collect_randomness_table, collect_randomness_running,
    collect_randomness_world in Hcw, Hcr, Hcg.
  destruct (select_vector_frame irq m) as (Hsr & Hsw & _).
  cbv zeta in Hsr, Hsw. rewrite Hsr, Hsw in Hcw, Hcr, Hcg.
  unfold entry_machine.
  split; [exact Hcw|]. split; [rewrite Hcr; reflexivity|]. exact Hcg.
Qed.

(** C1: an IRQ in range whose slot holds a handler has that handler
    invoked exactly once by one dispatch, with the IRQ number, the context
    and the argument stored in the slot next to the handler: the trace has
    that one call, the handler is run on the machine the dispatch prepared
    ([entry_machine]) and the dispatch returns the machine the handler
    returned, but for the second reading of the clock, the time of the
    slot and the running-task entry. *)
Theorem C1_registered_handler_called_once
    irq context ndx (m : machine W) :
  wf_config cfg ->
  resolves cfg irq ndx ->
  handler (g_irqvector m ndx) <> NULL ->
  let h := handler (g_irqvector m ndx) in
  let a := arg (g_irqvector m ndx) in
  let r := irq_dispatch cfg irq context m in
  let ret := isr h irq context a (entry_machine cfg irq m) in
  filter is_call (trace r) = [Call h irq context a] /\
  world (final r) = clock_read cfg (world ret) /\
  g_running_tasks (final r)
    = update (g_running_tasks ret) (this_cpu (world (final r)))
             (this_task (world (final r))) /\
  forall j,
    g_irqvector (final r) j
      = set_field Ftime (time (g_irqvector (final r) j))
                  (g_irqvector ret j) /\
    (j <> ndx \/ CONFIG_SCHED_IRQMONITOR cfg = false ->
     g_irqvector (final r) j = g_irqvector ret j).
Proof.
  intros Hwf Hres Hh h a r ret. subst h a r ret.
  pose proof (irq_dispatch_machine irq context m) as Hm. cbv zeta in Hm.
  pose proof (select_vector_index irq m) as Hi.
  rewrite (select_vector_resolved irq ndx m Hwf Hres) in Hm, Hi.
  rewrite take_slot_value in Hm, Hi.
  rewrite irq_dispatch_calls. cbv zeta.
  rewrite (select_vector_resolved irq ndx m Hwf Hres), take_slot_value.
  apply Z.eqb_neq in Hh. rewrite Hh in Hm, Hi |- *.
  cbn [fst snd] in Hm, Hi |- *. rewrite <- Hi in Hm.
  split; [reflexivity|]. exact Hm.
Qed.

(** C9: with entropy collection enabled, a dispatch offers the raw IRQ
    number to [add_irq_randomness] exactly once, and does so before it
    calls the handler or the sentinel: the trace has that one offer before
    its one call, the vector is entered in the world the hook returned
    (after the first reading of the clock), and the dispatch returns in
    the world the vector returned (after the second reading). *)
Theorem C9_entropy_once_before_call irq context (m : machine W) :
  CONFIG_CRYPTO_RANDOM_POOL_COLLECT_IRQ_RANDOMNESS cfg = true ->
  exists before mid v a after,
    trace (irq_dispatch cfg irq context m)
      = before ++ Randomness irq :: mid ++ Call v irq context a :: after /\
    forallb quiet (before ++ mid ++ after) = true /\
    world (entry_machine cfg irq m)
      = clock_read cfg (add_irq_randomness irq (world m)) /\
    world (final (irq_dispatch cfg irq context m))
      = clock_read cfg
          (world (isr v irq context a (entry_machine cfg irq m))).
Proof.
  intros Hen.
  pose proof (irq_dispatch_trace irq context m) as Htr. cbv zeta in Htr.
  rewrite collect_randomness_trace, Hen in Htr.
  match type of Htr with
  | context [CALL_VECTOR cfg ?n ?v irq context ?a ?m1] =>
      destruct (CALL_VECTOR_split n v irq context a m1)
        as (pre & post & Hc & Hq);
      exists (trace (select_vector cfg irq m)), pre, v, a
  end.
  rewrite Hc in Htr. rewrite forallb_app in Hq. apply andb_prop in Hq.
  destruct Hq as [Hpre Hpost].
  eexists. split; [|split; [|split]].
  - rewrite Htr. rewrite <- !app_assoc. cbn [app]. reflexivity.
  - assert (Hw : forall l,
               forallb (fun e => negb (is_call e) && negb (is_randomness e)
                                 && negb (is_count_write e)) l = true ->
               forallb quiet l = true).
    { intros l. apply forallb_weaken. intros e He.
      apply andb_prop in He. destruct He as [He _]. exact He. }
    rewrite !forallb_app, select_vector_quiet, (Hw pre Hpre),
      (Hw post Hpost).
    reflexivity.
  - unfold entry_machine, offered. cbn [world]. rewrite Hen. reflexivity.
  - exact (proj1 (irq_dispatch_machine irq context m)).
Qed.

(** *** Sequences of dispatches, seen from the world *)

Lemma clock_read_kept {P : Type} (obs : W -> P) w :
  (forall w, obs (snd (up_critmon_gettime w)) = obs w) ->
  (forall w, obs (snd (clock_systimespec w)) = obs w) ->
  obs (clock_read cfg w) = obs w.
Proof.
  intros Hg Hs. unfold clock_read.
  destruct (CONFIG_SCHED_IRQMONITOR cfg); [|reflexivity].
  destruct (HAVE_PLATFORM_GETTIME cfg); auto.
Qed.

(** X10: A sequence of dispatches makes one call per request, in the order
    of the requests, each with the IRQ number and the context of its
    request: the trace has these calls, and a ledger in which every
    service routine notes its IRQ number and context holds, after the
    sequence, one note per request in that order. *)
Theorem dispatch_all_calls {P : Type} (obs : W -> P)
    (step : Z -> Z -> P -> P) reqs (m : machine W) :
  logs_calls obs step ->
  map call_request (filter is_call (snd (dispatch_all cfg reqs m))) = reqs /\
  obs (world (fst (dispatch_all cfg reqs m)))
    = fold_left (fun o rq => step (fst rq) (snd rq) o) reqs (obs (world m)).
Proof.
  intros (Hisr & Hg & Hs & Hr). revert m.
  induction reqs as [|[irq context] rest IH]; intros m.
  - split; reflexivity.
  - cbn [dispatch_all fold_left fst snd].
    specialize (IH (final (irq_dispatch cfg irq context m))).
    destruct (irq_dispatch_machine irq context m) as (Hw & _).
    cbv zeta in Hw.
    destruct (dispatch_all cfg rest (final (irq_dispatch cfg irq context m)))
      as [m' l].
    cbn [fst snd] in IH |- *. destruct IH as [IHc IHo]. split.
    + rewrite filter_app, irq_dispatch_calls.
      cbn [app map call_request]. rewrite IHc. reflexivity.
    + rewrite IHo, Hw, (clock_read_kept obs _ Hg Hs), Hisr.
      unfold entry_machine. cbn [world].
      rewrite (clock_read_kept obs _ Hg Hs). unfold offered.
      destruct (CONFIG_CRYPTO_RANDOM_POOL_COLLECT_IRQ_RANDOMNESS cfg);
        rewrite ?Hr; reflexivity.
Qed.

(** X11: Over a sequence of dispatches the entropy pool is offered the
    IRQ numbers of the requests, once each and in their order, when
    entropy collection is enabled, and nothing when it is not: the trace
    has these offers, and a pool that logs what it is offered holds them
    after the sequence, in that order. *)
Theorem dispatch_all_randomness {P : Type} (obs : W -> P)
    (offer : Z -> P -> P) reqs (m : machine W) :
  logs_offers obs offer ->
  filter is_randomness (snd (dispatch_all cfg reqs m))
    = (if CONFIG_CRYPTO_RANDOM_POOL_COLLECT_IRQ_RANDOMNESS cfg
       then map (fun rq => Randomness (fst rq)) reqs
       else []) /\
  obs (world (fst (dispatch_all cfg reqs m)))
    = if CONFIG_CRYPTO_RANDOM_POOL_COLLECT_IRQ_RANDOMNESS cfg
      then fold_left (fun o rq => offer (fst rq) o) reqs (obs (world m))
      else obs (world m).
Proof.
  intros (Hr & Hg & Hs & Hisr). revert m.
  induction reqs as [|[irq context] rest IH]; intros m.
  - destruct (CONFIG_CRYPTO_RANDOM_POOL_COLLECT_IRQ_RANDOMNESS cfg);
      split; reflexivity.
  - cbn [dispatch_all fold_left fst snd].
    specialize (IH (final (irq_dispatch cfg irq context m))).
    destruct (irq_dispatch_machine irq context m) as (Hw & _).
    cbv zeta in Hw.
    destruct (dispatch_all cfg rest (final (irq_dispatch cfg irq context m)))
      as [m' l].
    cbn [fst snd] in IH |- *. destruct IH as [IHc IHo]. split.
    + rewrite filter_app, irq_dispatch_randomness, IHc.
      destruct (CONFIG_CRYPTO_RANDOM_POOL_COLLECT_IRQ_RANDOMNESS cfg);
        reflexivity.
    + rewrite IHo, Hw, (clock_read_kept obs _ Hg Hs), Hisr.
      unfold entry_machine. cbn [world].
      rewrite (clock_read_kept obs _ Hg Hs). unfold offered.
      destruct (CONFIG_CRYPTO_RANDOM_POOL_COLLECT_IRQ_RANDOMNESS cfg);
        rewrite ?Hr; reflexivity.
Qed.

End Properties.

(** ** The dispatcher on the stub platform *)

Module Cases.

Import Stub.

Lemma wf_direct (cfg : config) :
  NR_IRQS cfg < 2 ^ 31 ->
  0 <= CONFIG_ARCH_NUSER_INTERRUPTS cfg < 2 ^ 31 ->
  @wf_config board direct cfg.
Proof.
  intros Hn Hu. repeat split; try lia.
  - cbn [g_irqmap direct platform]. unfold identity. lia.
  - cbn [g_irqmap direct platform]. unfold identity. lia.
Qed.

Lemma wf_mapped (cfg : config) :
  NR_IRQS cfg < 2 ^ 31 ->
  0 <= CONFIG_ARCH_NUSER_INTERRUPTS cfg < 2 ^ 31 ->
  @wf_config board mapped cfg.
Proof.
  intros Hn Hu. repeat split; try lia;
    cbn [g_irqmap mapped platform]; unfold map7;
    destruct (irq =? 7); lia.
Qed.

(** The stub routines write no slot at all. *)
Lemma stub_keeps_counts map ndx : @isr_keeps_counts board (platform map) ndx.
Proof.
  intros v irq context a m. cbn [isr platform]. unfold run_isr.
  destruct (v =? SENTINEL); repeat split.
Qed.

Lemma stub_keeps_time map ndx : @isr_keeps_time board (platform map) ndx.
Proof.
  intros v irq context a m. cbn [isr platform]. unfold run_isr.
  destruct (v =? SENTINEL); reflexivity.
Qed.

(** Scenario 1: a handler on IRQ 5 is called once and counted once. *)
Example handler_on_irq5 :
  let r := @irq_dispatch board direct direct16 5 99 (attach 5 256 250 boot) in
  trace r
    = [Rd 5 Fhandler; Rd 5 Fhandler; Rd 5 Farg; Rd 5 Fcount; Wr 5 Fcount 1;
       Randomness 5; Gettime 100; Call 256 5 99 250; Gettime 350;
       Convert 250 (mk_timespec 0 250); Rd 5 Ftime; Wr 5 Ftime 250;
       Running 0 256] /\
  hits (world (final r)) = 1 /\
  count (g_irqvector (final r) 5) = 1 /\
  g_running_tasks (final r) 0 = 256.
Proof. vm_compute. repeat split. Qed.

(** Scenario 3: IRQ 7 is served from slot 2 of the compressed table. *)
Example mapped_irq7 :
  let r := @irq_dispatch board mapped minimal4 7 99 (attach 2 256 250 boot) in
  filter is_call (trace r) = [Call 256 7 99 250] /\
  lscount (g_irqvector (final r) 2) = 1.
Proof. vm_compute. repeat split. Qed.

(** Scenario 4: a measured delta of 250 followed by one of 100 leaves
    the time of slot 5 at 250. *)
Example worst_of_two :
  let first := @dispatch_all board direct direct16 [(5, 0)]
                 (attach 5 256 250 boot) in
  let second := @dispatch_all board direct direct16 [(5, 0)]
                  (attach 5 256 100 (fst first)) in
  deltas (snd first) = [250] /\ deltas (snd second) = [100] /\
  time (g_irqvector (fst second) 5) = 250.
Proof. vm_compute. repeat split. Qed.

(** Without monitoring an IRQ out of range goes to the sentinel and
    touches no slot. *)
Example stray_irq_unmonitored :
  trace (@irq_dispatch board direct bare16 42 99 boot)
    = [Call SENTINEL 42 99 NULL; Running 0 1].
Proof. vm_compute. reflexivity. Qed.

(** C1 on IRQ 5 with routine 256 and argument 250 attached: the routine
    has run (one hit, 250 ticks, its task made runnable). *)
Lemma C1_witness :
  let m := attach 5 256 250 boot in
  let r := @irq_dispatch board direct direct16 5 99 m in
  @wf_config board direct direct16 /\
  @resolves board direct direct16 5 5 /\
  handler (g_irqvector m 5) <> NULL /\
  filter is_call (trace r) = [Call 256 5 99 250] /\
  world (final r) = mk_board 350 256 0 [5] 1 /\
  g_running_tasks (final r) 0 = 256 /\
  g_irqvector (final r) 5 = mk_irq_info 256 250 250 1 0 0.
Proof.
  intros m r.
  assert (Hwf : @wf_config board direct direct16)
    by (apply wf_direct; cbn; lia).
  assert (Hres : @resolves board direct direct16 5 5)
    by (split; [cbn; lia | reflexivity]).
  assert (Hh : handler (g_irqvector m 5) <> NULL)
    by (cbn; unfold NULL; lia).
  pose proof (@C1_registered_handler_called_once board direct direct16
                5 99 5 m Hwf Hres Hh) as (Hcall & Hw & Hrt & Hg).
  refine (conj Hwf (conj Hres (conj Hh (conj Hcall (conj Hw (conj _ _)))))).
  - exact (f_equal (fun f => f 0) Hrt).
  - exact (proj1 (Hg 5)).
Defined.

(** C2: with monitoring enabled, dispatching IRQ 42 on a 16-IRQ build
    calls the sentinel and then reads and writes the time field at index
    42, past the end of the 16-slot table. *)
Theorem C2_stray_irq_touches_time :
  let r := @irq_dispatch board direct direct16 42 99 boot in
  uint32 (NR_IRQS direct16) <= uint32 42 /\
  table_len direct16 <= 42 /\
  filter is_call (trace r) = [Call SENTINEL 42 99 NULL] /\
  filter is_accounting (trace r) = [Rd 42 Ftime; Wr 42 Ftime 50] /\
  time (g_irqvector boot 42) = 0 /\
  time (g_irqvector (final r) 42) = 50.
Proof.
  vm_compute. repeat split; intro; discriminate.
Qed.

(** C3: with monitoring enabled in the minimal vector table build,
    dispatching IRQ 8, whose map entry is the table size 4, calls the
    sentinel and then reads and writes the time field at index 4, one
    past the last slot. *)
Theorem C3_unmapped_irq_touches_time :
  let r := @irq_dispatch board mapped minimal4 8 99
             (attach 2 256 250 boot) in
  0 <= 8 < NR_IRQS minimal4 /\
  CONFIG_ARCH_NUSER_INTERRUPTS minimal4 <= @g_irqmap board mapped 8 /\
  table_len minimal4 <= @g_irqmap board mapped 8 /\
  filter is_call (trace r) = [Call SENTINEL 8 99 NULL] /\
  filter is_slot_access (trace r) = [Rd 4 Ftime; Wr 4 Ftime 50] /\
  time (g_irqvector (final r) 4) = 50.
Proof.
  vm_compute. repeat split; intro; discriminate.
Qed.

(** C4 as stated fails where the counter wraps: one dispatch from
    [lscount = 0xFFFFFFFF], [mscount = 0xFFFFFFFF] gives [mscount = 0],
    not [mscount + 1], and a logical count of 0, not 2^64; the wide
    counter goes from 2^64 - 1 to 0 likewise. *)
Lemma C4_counterexample :
  let m := preset 5 18446744073709551615 4294967295 4294967295 boot in
  let n := fst (@dispatch_all board direct narrow16 [(5, 0)] m) in
  let w := fst (@dispatch_all board direct direct16 [(5, 0)] m) in
  CONFIG_SCHED_IRQMONITOR narrow16 = true /\
  @resolves board direct narrow16 5 5 /\
  wf_slot (g_irqvector m 5) /\
  lscount (g_irqvector m 5) = 4294967295 /\
  lscount (g_irqvector n 5) = 0 /\
  mscount (g_irqvector n 5) <> mscount (g_irqvector m 5) + 1 /\
  logical_count narrow16 (g_irqvector n 5)
    <> logical_count narrow16 (g_irqvector m 5) + 1 /\
  logical_count direct16 (g_irqvector w 5)
    <> logical_count direct16 (g_irqvector m 5) + 1.
Proof.
  vm_compute. repeat split; intro; discriminate.
Qed.

(** C4 on three dispatches of IRQ 7 through slot 2, across a wrap of the
    low word. *)
Lemma C4_witness :
  let m := preset 2 0 0 4294967295 (attach 2 256 250 boot) in
  let reqs := [(7, 0); (7, 1); (7, 2)] in
  CONFIG_SCHED_IRQMONITOR minimal4 = true /\
  @wf_config board mapped minimal4 /\
  @isr_keeps_counts board mapped 2 /\
  Forall (fun rq => @resolves board mapped minimal4 (fst rq) 2) reqs /\
  wf_slot (g_irqvector m 2) /\
  logical_count minimal4
    (g_irqvector (fst (@dispatch_all board mapped minimal4 reqs m)) 2)
    = 4294967298 /\
  mscount
    (g_irqvector (final (@irq_dispatch board mapped minimal4 7 0 m)) 2)
    = 1.
Proof.
  intros m reqs.
  assert (Hwf : @wf_config board mapped minimal4)
    by (apply wf_mapped; cbn; lia).
  assert (Hres : @resolves board mapped minimal4 7 2)
    by (split; [cbn; lia | split; [reflexivity | cbn; lia]]).
  assert (Hall : Forall (fun rq => @resolves board mapped minimal4
                                     (fst rq) 2) reqs)
    by (repeat (apply Forall_cons; [exact Hres|]); apply Forall_nil).
  assert (Hslot : wf_slot (g_irqvector m 2))
    by (repeat split; cbn; lia).
  pose proof (@C4_count_after_dispatches board mapped minimal4 reqs 2 m
                eq_refl Hwf (stub_keeps_counts map7 2) Hall Hslot)
    as (Hafter & _ & Hwrap).
  specialize (Hwrap eq_refl eq_refl 7 0 Hres). destruct Hwrap as [_ Hms].
  exact (conj eq_refl (conj Hwf (conj (stub_keeps_counts map7 2)
           (conj Hall (conj Hslot (conj Hafter Hms)))))).
Defined.

(** C5 on two dispatches of IRQ 5, each measured at 250 ticks. *)
Lemma C5_witness :
  let m := attach 5 256 250 boot in
  let reqs := [(5, 0); (5, 1)] in
  let r := @dispatch_all board direct direct16 reqs m in
  CONFIG_SCHED_IRQMONITOR direct16 = true /\
  @wf_config board direct direct16 /\
  @isr_keeps_time board direct 5 /\
  Forall (fun rq => @resolves board direct direct16 (fst rq) 5) reqs /\
  deltas (snd r) = [250; 250] /\
  time (g_irqvector (fst r) 5) = 250 /\
  time (g_irqvector
          (fst (@dispatch_all board direct direct16 [(5, 0)] m)) 5)
    <= time (g_irqvector (fst r) 5).
Proof.
  intros m reqs r.
  assert (Hwf : @wf_config board direct direct16)
    by (apply wf_direct; cbn; lia).
  assert (Hres : @resolves board direct direct16 5 5)
    by (split; [cbn; lia | reflexivity]).
  assert (Hall : Forall (fun rq => @resolves board direct direct16
                                     (fst rq) 5) reqs)
    by (repeat (apply Forall_cons; [exact Hres|]); apply Forall_nil).
  pose proof (@C5_worst_case_time board direct direct16 reqs 5 m
                eq_refl Hwf (stub_keeps_time identity 5) Hall)
    as (_ & Hmax & Hmono).
  exact (conj eq_refl (conj Hwf (conj (stub_keeps_time identity 5)
           (conj Hall (conj eq_refl
              (conj Hmax (Hmono [(5, 0)] [(5, 1)] eq_refl))))))).
Defined.


(** C9 on IRQ 9 of a build that collects entropy: the pool holds 9 when
    the dispatch returns. *)
Lemma C9_witness :
  let r := @irq_dispatch board direct direct16 9 99 boot in
  CONFIG_CRYPTO_RANDOM_POOL_COLLECT_IRQ_RANDOMNESS direct16 = true /\
  pool (world (final r)) = [9] /\
  exists before mid v a after,
    trace r = before ++ Randomness 9 :: mid ++ Call v 9 99 a :: after /\
    forallb quiet (before ++ mid ++ after) = true /\
    world (@entry_machine board direct direct16 9 boot)
      = @clock_read board direct direct16
          (@add_irq_randomness board direct 9 (world boot)) /\
    world (final r)
      = @clock_read board direct direct16
          (world (@isr board direct v 9 99 a
                    (@entry_machine board direct direct16 9 boot))).
Proof.
  intros r.
  refine (conj eq_refl (conj eq_refl _)).
  exact (@C9_entropy_once_before_call board direct direct16 9 99 boot
           eq_refl).
Defined.

(** C10 on an IRQ out of range, and on an IRQ whose slot is empty. *)
Lemma C10_witness :
  @misses board direct bare16 42 /\
  filter is_call (trace (@irq_dispatch board direct bare16 42 99 boot))
    = [Call SENTINEL 42 99 NULL] /\
  handler (g_irqvector boot 6) = NULL /\
  filter is_call (trace (@irq_dispatch board direct bare16 6 99 boot))
    = [Call SENTINEL 6 99 NULL].
Proof.
  assert (Hmiss : @misses board direct bare16 42)
    by (right; left; apply Z.leb_le; reflexivity).
  assert (Hwf : @wf_config board direct bare16)
    by (apply wf_direct; cbn; lia).
  assert (Hres : @resolves board direct bare16 6 6)
    by (split; [cbn; lia | reflexivity]).
  exact (conj Hmiss
           (conj (@C10_sentinel_gets_null board direct bare16 42 99 0 boot
                    (or_introl Hmiss))
              (conj eq_refl
                 (@C10_sentinel_gets_null board direct bare16 6 99 6 boot
                    (or_intror (conj Hwf (conj Hres eq_refl))))))).
Defined.

End Cases.

(** ** Further runs on the stub platform *)

Module Runs.

Import Stub.

Lemma stub_keeps_registration map ndx :
  @isr_keeps_registration board (platform map) ndx.
Proof.
  intros v irq context a m. cbn [isr platform]. unfold run_isr.
  destruct (v =? SENTINEL); split; reflexivity.
Qed.

Lemma stub_keeps_running map : @isr_keeps_running board (platform map).
Proof.
  intros v irq context a m c. cbn [isr platform]. unfold run_isr.
  destruct (v =? SENTINEL); reflexivity.
Qed.

(** The guarded accesses of a dispatch of IRQ 7 through slot 2 of the
    4-slot table. *)
Lemma guarded_accesses_witness :
  0 <= CONFIG_ARCH_NUSER_INTERRUPTS minimal4 /\
  Forall (fun e => forall n f,
            access_index e = Some n -> access_field e = Some f ->
            f <> Ftime -> 0 <= n < table_len minimal4)
         (trace (@irq_dispatch board mapped minimal4 7 99
                   (attach 2 256 250 boot))).
Proof.
  assert (H : 0 <= CONFIG_ARCH_NUSER_INTERRUPTS minimal4) by (cbn; lia).
  exact (conj H (@guarded_accesses_within_table board mapped minimal4 7 99
                   (attach 2 256 250 boot) H)).
Defined.

(** A build without monitoring, on IRQ 5 with a handler attached. *)
Lemma unmonitored_witness :
  CONFIG_SCHED_IRQMONITOR bare16 = false /\
  Forall (fun e => is_clock e = false /\
                   (forall n f v, e <> Wr n f v) /\
                   (forall n f, e = Rd n f -> f = Fhandler \/ f = Farg))
         (trace (@irq_dispatch board direct bare16 5 99
                   (attach 5 256 250 boot))).
Proof.
  exact (conj eq_refl (@unmonitored_dispatch_is_bare board direct bare16 5 99
                         (attach 5 256 250 boot) eq_refl)).
Defined.

(** The registration of slot 5 survives a dispatch of IRQ 5. *)
Lemma registration_witness :
  let m := attach 5 256 250 boot in
  let r := @irq_dispatch board direct direct16 5 99 m in
  @isr_keeps_registration board direct 5 /\
  handler (g_irqvector (final r) 5) = 256 /\
  arg (g_irqvector (final r) 5) = 250.
Proof.
  intros m r.
  pose proof (@dispatch_keeps_registration board direct direct16 5 99 5 m
                (stub_keeps_registration identity 5)) as (_ & Hh & Ha).
  exact (conj (stub_keeps_registration identity 5) (conj Hh Ha)).
Defined.

(** The running-task entry of CPU 3 is untouched by a dispatch that ends
    on CPU 0. *)
Lemma running_slot_witness :
  let r := @irq_dispatch board direct direct16 5 99 (attach 5 256 250 boot) in
  @isr_keeps_running board direct /\
  3 <> @this_cpu board direct (world (final r)) /\
  g_running_tasks (final r) 3 = 0 /\
  filter is_running (trace r) = [Running 0 256].
Proof.
  intros r.
  assert (Hc : 3 <> @this_cpu board direct (world (final r)))
    by (vm_compute; discriminate).
  pose proof (@dispatch_writes_one_running_slot board direct direct16 5 99 3
                (attach 5 256 250 boot) (stub_keeps_running identity) Hc)
    as (Hrt & Htr).
  exact (conj (stub_keeps_running identity) (conj Hc (conj Hrt Htr))).
Defined.

(** The tick clock around the call of the handler of IRQ 5. *)
Lemma clock_bracket_witness :
  CONFIG_SCHED_IRQMONITOR direct16 = true /\
  exists before bracket after v a,
    trace (@irq_dispatch board direct direct16 5 99 (attach 5 256 250 boot))
      = before ++ bracket ++ after /\
    Forall (fun e => is_clock e = false) (before ++ after) /\
    ((HAVE_PLATFORM_GETTIME direct16 = true /\
      exists s e,
        bracket = [Gettime s; Call v 5 99 a; Gettime e;
                   Convert (uint32 (e - s))
                           (@up_critmon_convert board direct
                              (uint32 (e - s)))] /\
        forall k, 0 <= k < 2 ^ 32 -> e = uint32 (s + k) ->
                  uint32 (e - s) = k) \/
     (HAVE_PLATFORM_GETTIME direct16 = false /\
      exists s e,
        bracket = [Systimespec s; Call v 5 99 a; Systimespec e;
                   Subtract e s
                     (@clock_timespec_subtract board direct e s)])).
Proof.
  exact (conj eq_refl (@clock_brackets_the_call board direct direct16 5 99
                         (attach 5 256 250 boot) eq_refl)).
Defined.

(** A second dispatch measured at 250 ticks, equal to the recorded time,
    writes nothing. *)
Lemma time_write_witness :
  let m := fst (@dispatch_all board direct direct16 [(5, 0)]
                  (attach 5 256 250 boot)) in
  let r := @irq_dispatch board direct direct16 5 99 m in
  CONFIG_SCHED_IRQMONITOR direct16 = true /\
  @isr_keeps_time board direct (@call_index board direct direct16 5) /\
  time (g_irqvector m 5) = 250 /\
  exists d,
    deltas (trace r) = [d] /\
    filter is_time_write (trace r)
      = (if d >? 250 then [Wr 5 Ftime d] else []) /\
    time (g_irqvector (final r) 5) = Z.max 250 d.
Proof.
  intros m r.
  exact (conj eq_refl
           (conj (Cases.stub_keeps_time identity _)
              (conj eq_refl
                 (@time_written_only_when_exceeded board direct direct16
                    5 99 m eq_refl (Cases.stub_keeps_time identity _))))).
Defined.

(** IRQ -1 on a 16-IRQ build. *)
Lemma negative_irq_witness :
  - 2 ^ 31 <= -1 < 0 /\
  NR_IRQS direct16 < 2 ^ 31 /\
  @reaches board direct direct16 (-1) = false /\
  @call_index board direct direct16 (-1) = 4294967295 /\
  filter is_call (trace (@irq_dispatch board direct direct16 (-1) 99 boot))
    = [Call SENTINEL (-1) 99 NULL].
Proof.
  assert (H1 : - 2 ^ 31 <= -1 < 0) by lia.
  assert (H2 : NR_IRQS direct16 < 2 ^ 31) by (cbn; lia).
  exact (conj H1 (conj H2
           (@negative_irq_is_stray board direct direct16 (-1) 99 boot
              H1 H2))).
Defined.

(** Five dispatches, of which the two of IRQ 7 reach slot 2. *)
Lemma mixed_sequence_witness :
  let m := attach 2 256 250 boot in
  let reqs := [(7, 0); (8, 0); (42, 0); (7, 1); (-1, 0)] in
  CONFIG_SCHED_IRQMONITOR minimal4 = true /\
  @isr_keeps_counts board mapped 2 /\
  wf_slot (g_irqvector m 2) /\
  logical_count minimal4
    (g_irqvector (fst (@dispatch_all board mapped minimal4 reqs m)) 2) = 2.
Proof.
  intros m reqs.
  assert (Hslot : wf_slot (g_irqvector m 2)) by (repeat split; cbn; lia).
  pose proof (@count_over_mixed_sequence board mapped minimal4 reqs 2 m
                eq_refl (Cases.stub_keeps_counts map7 2) Hslot) as (Hl & _).
  exact (conj eq_refl (conj (Cases.stub_keeps_counts map7 2)
           (conj Hslot Hl))).
Defined.

(** The low word of slot 5 goes from 41 to 42 and the high word stays. *)
Lemma no_carry_witness :
  let m := preset 5 0 7 41 boot in
  let r := @irq_dispatch board direct narrow16 5 99 m in
  CONFIG_SCHED_IRQMONITOR narrow16 = true /\
  CONFIG_HAVE_LONG_LONG narrow16 = false /\
  @reaches board direct narrow16 5 = true /\
  @isr_keeps_counts board direct (@call_index board direct narrow16 5) /\
  0 <= lscount (g_irqvector m (@call_index board direct narrow16 5))
    < 2 ^ 32 - 1 /\
  lscount (g_irqvector (final r) 5) = 42 /\
  mscount (g_irqvector (final r) 5) = 7.
Proof.
  intros m r.
  assert (Hls : 0 <= lscount (g_irqvector m
                                (@call_index board direct narrow16 5))
                < 2 ^ 32 - 1)
    by (vm_compute; split; [discriminate | reflexivity]).
  pose proof (@no_carry_leaves_high_word board direct narrow16 5 99 m
                eq_refl eq_refl eq_refl (Cases.stub_keeps_counts identity _)
                Hls) as (Hl & Hm & _).
  exact (conj eq_refl (conj eq_refl (conj eq_refl
           (conj (Cases.stub_keeps_counts identity _)
              (conj Hls (conj Hl Hm)))))).
Defined.

(** Three dispatches on the ledger platform: the ledger holds the three
    requests, the last one first. *)
Lemma sequence_calls_witness :
  let reqs := [(5, 1); (42, 2); (7, 3)] in
  let r := @dispatch_all Ledger.book Ledger.platform direct16 reqs
             Ledger.boot in
  @logs_calls Ledger.book Ledger.platform Ledger.book (fun w => w)
    (fun irq context o => (irq, context) :: o) /\
  map call_request (filter is_call (snd r)) = reqs /\
  world (fst r) = [(7, 3); (42, 2); (5, 1)].
Proof.
  intros reqs r.
  assert (H : @logs_calls Ledger.book Ledger.platform Ledger.book
                (fun w => w) (fun irq context o => (irq, context) :: o)).
  { split; [|split; [|split]]; intros; reflexivity. }
  exact (conj H (@dispatch_all_calls Ledger.book Ledger.platform direct16
                   Ledger.book (fun w => w)
                   (fun irq context o => (irq, context) :: o)
                   reqs Ledger.boot H)).
Defined.

(** Two dispatches on the stub platform, which collects entropy: the pool
    holds both IRQ numbers, the last one first. *)
Lemma sequence_offers_witness :
  let reqs := [(5, 0); (42, 0)] in
  let r := @dispatch_all board direct direct16 reqs boot in
  @logs_offers board direct (list Z) pool (fun irq o => irq :: o) /\
  filter is_randomness (snd r) = [Randomness 5; Randomness 42] /\
  pool (world (fst r)) = [42; 5].
Proof.
  intros reqs r.
  assert (H : @logs_offers board direct (list Z) pool
                (fun irq o => irq :: o)).
  { split; [|split; [|split]]; intros; try reflexivity.
    cbn [isr direct platform]. unfold run_isr.
    destruct (v =? SENTINEL); reflexivity. }
  exact (conj H (@dispatch_all_randomness board direct direct16 (list Z)
                   pool (fun irq o => irq :: o) reqs boot H)).
Defined.

End Runs.
